(* ===== verification/_CoqProject ===== *)
-Q . S2P
Prelude.v
PyBuiltins.v
Qgis.v
Neighbors.v
Grid.v
Volatility.v
Isolation.v
Bounds.v
Csv.v
Independence.v
IsolationSpec.v
EndToEnd.v
