(* ===== verification/Prelude.v ===== *)
(** * A verification development of the GIS-Portfolio scripts

    The repository holds one Python file,
    [src/interyear_climatic_volatility_pyqgis.py], which is two QGIS console
    scripts pasted one after the other:

    - the interannual climatic volatility script (lines 16-93): three
      functions [av_formula_generator], [sd_formula_generator] and
      [sd_raster_generator] that build QGIS Raster Calculator expressions
      for the interannual mean and standard deviation of one month of a
      CRU TS NetCDF file, run the calculator and register the rasters;
    - the Local Isolation Measure script (lines 114-234): the helpers
      [bufpoint_id_generator] and [pointexpr_generator] build QGIS
      expressions selecting a grid point and its neighbours by id (the
      neighbour ids are the point id plus a fixed list of offsets), and the
      main loop extracts the start point and the end points, runs the
      "Least Cost Path" processing algorithm over a cost raster, averages
      the "total cost" of the resulting paths into the [avlcpcost] column of
      a pandas table, sleeps two seconds, and records the point id and the
      exception of every iteration whose least-cost-path block raised.

    The two scripts interact with QGIS only: processing runs, memory layers
    added to the project, the clock.  The development models each script as
    a program of a state-and-exception monad whose state holds the QGIS
    world and the script's mutable Python locals.

    ** Files (in dependency order)

    - [Prelude] (this file): Python exceptions ([PyExc]), the result type
      [res], the monad [PyM S A := S -> res A * S] with its notation scope
      [py_scope] ([x <- m ;; k]), [try_except] with Python's semantics (the
      state reached when the exception is raised is kept), [py_mapM], the
      monad laws as a rewrite database [py_rw], invariants of monadic code
      ([py_preserves], carried through bind, [try_except] and [py_for] by
      the hint database [py]), the tactic [decide_lia], and shared list
      lemmas.
    - [PyBuiltins]: the Python and numpy built-ins the scripts call:
      [py_str_int] ([str] of an int), [py_join] ([sep.join]), [py_range]
      ([range] as CPython computes it, with a reference iterator
      [py_range_iter] and their equivalence), [os_path_join], [py_unique]
      ([pandas.Series.unique]) and [np_mean] (numpy's mean, [None] standing
      for NaN, over rationals).  Round trips: [py_str_int] against a decimal
      parser.
    - [Qgis]: the QGIS world ([World]: project layers, log of processing
      runs, clock, written files), grid features, [addMapLayer],
      [time_sleep], [processing.run] of "native:extractbyexpression" (with a
      parser [parse_in_expr] of the [id IN (...)] expressions the scripts
      generate, modelled from the QGIS expression grammar) and of the Least
      Cost Path plugin (an injected solver function).
    - [Neighbors]: [bufpoint_id_generator], [pointexpr_generator] and the
      theorems that the generated expressions parse back to the id lists
      and that extracting with them filters the grid file by membership.
    - [Grid]: the row-major grid convention of the specification ([cell_id],
      [cell_of], a ring of cell steps and its offsets).  Theorems: away from
      the west and east edges the derived neighbour ids are exactly the
      eight surrounding cells; on the west edge the western ones are the
      last cells of the rows above (a finding).  The session's offset list
      is not in the repository: the eight-cell ring is an example.
    - [Volatility]: the formula generators and [sd_raster_generator], with a
      small Python value type for the iteration at line 33.  Theorems: the
      layer numbers are the [num_years] months [month + 12 k]; the standard
      deviation formula quotes exactly the expected layer names (a round
      trip through a quoted-name scanner); and, as written, line 33
      iterates over an [int], so every call of [av_formula_generator], of
      [sd_formula_generator] and of [sd_raster_generator] raises before any
      raster is computed.
    - [Isolation]: the Local Isolation loop: table rows, the loop state, one
      definition per iteration ([iso_step]) and for the loop ([iso_loop])
      and the script ([local_isolation], and [isolation_script] from the
      lookup of the grid layer at line 173).  Theorems: the table keeps one row
      per grid point with its id and isocode; each iteration performs
      exactly the processing runs extract, extract, least cost path in that
      order; the error ledger lists exactly the points whose least-cost
      block raised, in loop order; a point's value is the mean of its path
      costs; a failure at one point changes no other row; the project layer
      list grows by two or three layers per point (never released); the
      script sleeps two seconds per successful point only; the loop aborts
      only when an extraction expression does not parse, which the
      generated expressions never do when the offset list is non-empty;
      the only load-time failure is a missing grid layer, which raises
      before any point is processed.
    - [Bounds]: the values the script writes lie within any bounds of the
      path costs the solver reports (numpy's mean of a non-empty column
      lies between its least and greatest values).
    - [Csv]: the text [df_cntry.to_csv] writes at line 234 under pandas'
      defaults (an unnamed index column first, NaN as the empty field,
      minimal quoting with doubled quotes, a line of one empty field
      quoted), with Python's float [repr] as a class [FloatRepr], and an
      RFC 4180 reader.  Lemmas: any lines of any fields read back from
      their text; the file's header is [,id,isocode,avlcpcost] (a finding
      against the specification's columns); the table reads back from its
      file, which [EndToEnd] uses.
    - [Independence]: an equivalence of loop states ([iso_equiv]: same
      table, same ledger, layers and runs up to order).  Theorems: the two
      ledger lists stay parallel on every path; the loop's result does not
      depend on the order of the points.
    - [IsolationSpec]: the abstract contract of a least-cost-path solver
      (a class [LcpContract] over an abstract cost function) and the
      refinement theorem: under the contract, the loop computes for every
      selected point the mean least cost to its reachable neighbours, or
      leaves NaN and records the point when it has no neighbour; with a
      one-point catalog every point is recorded and every row is NaN.  The
      contract assumes the plugin does not fail when end points exist.
    - [EndToEnd]: the components composed.  From a project holding the grid
      layer, under the solver contract and for any float formatter that
      reads back, the one file the script writes reads back as the table of
      Local Isolation Measures (NaN for the points not looped over).

    ** Modelling choices

    - Integers are Python ints: unbounded [Z].  Costs are floats in the
      program; they are modelled as rationals [Q] and compared with [Qeq]
      (so the averaging theorems are exact-arithmetic statements; rounding
      of float sums is not modelled).  NaN is [None].
    - Strings are [String.string]; the double quote character is written
      [dq] (code 34).
    - Names that the scripts use but never define ([nc_layer_name],
      [bufcoordchng_rad2dg_grid1dg], [selec_point_ids], [tab_output_path])
      are parameters of the model (they are expected from the QGIS console
      session); the findings record that the file alone raises NameError.
    - QGIS and its plugins are external: extraction is modelled from the
      QGIS expression grammar for the one expression shape the scripts
      generate; the least-cost-path plugin is a parameter, constrained only
      in [IsolationSpec].  There is no fuel anywhere: every loop of the
      scripts is a [for] over a finite list, modelled by structural
      recursion; [py_range_iter] takes as fuel the length CPython computes,
      and its equivalence theorem shows that fuel is exact.
    - The code is sequential; the worker pool of the specification
      (section 5) is not modelled.  The row-major grid convention of the
      specification (sections 4.2 and 9) is not in the code; the
      definitions of [Grid] model it from the specification, over the
      code's own neighbour generator, to state what the code guarantees
      under it.
    - Library versions: [np.NaN] (line 185) exists in NumPy 1.x only
      (NumPy 2.0 removed it, so the script raises AttributeError there);
      the model follows NumPy 1.x.  Quoting of a field holding a carriage
      return alone depends on the Python version ([Csv]).

    ** Not modelled

    Every line of code of the repository is modelled.  What is left lies
    outside it and is not modelled: reading the NetCDF and shapefile data;
    the Least Cost Path plugin's search over the cost raster (its code is
    not in the repository, so it is a parameter, constrained by
    [LcpContract]); QGIS's own processing, raster algebra (the
    calculator's output values) and map rendering; the order of
    [mapLayersByName] among several layers of one name; the decimal digits
    Python writes for a float (the [FloatRepr] class states only that they
    read back); float rounding (costs are rationals); the Windows line
    ending [to_csv] would use there; and the text of exception messages
    beyond their kind. *)

From stdpp Require Import base list strings.
From Stdlib Require Import ZArith.

Declare Scope py_scope.
Delimit Scope py_scope with py.

(** ** Python exceptions and results *)

(** The exception classes the scripts can raise, with their argument. *)
Inductive PyExc : Type :=
| NameError (name : string)
| TypeError (msg : string)
| IndexError (msg : string)
| KeyError (key : string)
| ValueError (msg : string)
| AttributeError (msg : string)
| QgsProcessingException (msg : string).

#[export] Instance PyExc_eq_dec : EqDecision PyExc.
Proof. solve_decision. Defined.

(** The outcome of a Python computation: a value or a raised exception. *)
Inductive res (A : Type) : Type :=
| Ok (a : A)
| Exc (e : PyExc).
Arguments Ok {A} a.
Arguments Exc {A} e.

Definition is_ok {A} (r : res A) : bool :=
  match r with Ok _ => true | Exc _ => false end.

(** ** The state-and-exception monad *)

(** A Python statement sequence over a state [S]: it returns a value or
    raises, and in both cases the state reached so far is kept (side
    effects performed before a [raise] are not undone). *)
Definition PyM (S A : Type) : Type := S -> res A * S.

Definition py_ret {S A} (a : A) : PyM S A := fun s => (Ok a, s).

Definition py_bind {S A B} (m : PyM S A) (k : A -> PyM S B) : PyM S B :=
  fun s => match m s with
           | (Ok a, s') => k a s'
           | (Exc e, s') => (Exc e, s')
           end.

Definition py_raise {S A} (e : PyExc) : PyM S A := fun s => (Exc e, s).

Definition py_get {S} : PyM S S := fun s => (Ok s, s).

Definition py_modify {S} (f : S -> S) : PyM S unit := fun s => (Ok tt, f s).

(** [try: m except Exception as exc: h exc]: the handler starts from the
    state in which [m] raised. *)
Definition try_except {S A} (m : PyM S A) (h : PyExc -> PyM S A) : PyM S A :=
  fun s => match m s with
           | (Ok a, s') => (Ok a, s')
           | (Exc e, s') => h e s'
           end.

(** A pure computation that may raise, run in any state. *)
Definition py_lift_res {S A} (r : res A) : PyM S A :=
  fun s => (r, s).

Notation "x <- m ;; k" := (py_bind m (fun x => k))
  (at level 100, m at next level, right associativity) : py_scope.
Notation "m ;; k" := (py_bind m (fun _ : unit => k))
  (at level 100, right associativity) : py_scope.
Notation "'raise' e" := (py_raise e) (at level 10) : py_scope.

Local Open Scope py_scope.

(** [[f x for x in xs]] where [f] may raise: evaluated left to right,
    stopping at the first exception. *)
Fixpoint py_mapM {S A B} (f : A -> PyM S B) (xs : list A) : PyM S (list B) :=
  match xs with
  | [] => py_ret []
  | x :: xs' => y <- f x ;; ys <- py_mapM f xs' ;; py_ret (y :: ys)
  end.

(** A [for] loop over a list, for its effects. *)
Fixpoint py_for {S A} (body : A -> PyM S unit) (xs : list A) : PyM S unit :=
  match xs with
  | [] => py_ret tt
  | x :: xs' => body x ;; py_for body xs'
  end.

(** ** Monad laws and unfolding equations *)

Create HintDb py discriminated.
Create Rewrite HintDb py_rw.

Lemma py_bind_ret_l {S A B} (a : A) (k : A -> PyM S B) :
  py_bind (py_ret a) k = k a.
Proof. reflexivity. Qed.

Lemma py_bind_ret_r {S A} (m : PyM S A) s :
  py_bind m py_ret s = m s.
Proof. unfold py_bind, py_ret. by destruct (m s) as [[] ?]. Qed.

Lemma py_bind_assoc {S A B C} (m : PyM S A) (k : A -> PyM S B)
  (k' : B -> PyM S C) s :
  py_bind (py_bind m k) k' s = py_bind m (fun a => py_bind (k a) k') s.
Proof. unfold py_bind. by destruct (m s) as [[] ?]. Qed.

Lemma py_bind_raise {S A B} (e : PyExc) (k : A -> PyM S B) :
  py_bind (py_raise e) k = py_raise e.
Proof. reflexivity. Qed.

Lemma py_bind_run {S A B} (m : PyM S A) (k : A -> PyM S B) s :
  py_bind m k s =
  match m s with (Ok a, s') => k a s' | (Exc e, s') => (Exc e, s') end.
Proof. reflexivity. Qed.

Lemma try_except_run {S A} (m : PyM S A) h s :
  try_except m h s =
  match m s with (Ok a, s') => (Ok a, s') | (Exc e, s') => h e s' end.
Proof. reflexivity. Qed.

#[export] Hint Rewrite @py_bind_ret_l @py_bind_raise : py_rw.

(** [py_for] over a concatenation runs the two loops in sequence. *)
Lemma py_for_app {S A} (body : A -> PyM S unit) xs ys s :
  py_for body (xs ++ ys) s = py_bind (py_for body xs) (fun _ => py_for body ys) s.
Proof.
  revert s. induction xs as [|x xs IH]; intros s; [reflexivity|].
  cbn [app py_for]. rewrite py_bind_assoc, !py_bind_run.
  destruct (body x s) as [[] s']; [apply IH | reflexivity].
Qed.

(** ** Invariants of monadic code

    [py_preserves I m]: running [m] from a state satisfying [I] ends in a
    state satisfying [I], whether [m] returns or raises.  The combinators
    preserve invariants, so an invariant of a whole script follows from
    the invariants of its primitive updates ([eauto with py]). *)

Definition py_preserves {S A} (I : S -> Prop) (m : PyM S A) : Prop :=
  forall s, I s -> I (snd (m s)).

Lemma py_preserves_ret {S A} (I : S -> Prop) (a : A) : py_preserves I (py_ret a).
Proof. by intros s Hs. Qed.

Lemma py_preserves_raise {S A} (I : S -> Prop) e : py_preserves I (@py_raise S A e).
Proof. by intros s Hs. Qed.

Lemma py_preserves_modify {S} (I : S -> Prop) (f : S -> S) :
  (forall s, I s -> I (f s)) -> py_preserves I (py_modify f).
Proof. intros Hf s Hs. by apply Hf. Qed.

Lemma py_preserves_bind {S A B} (I : S -> Prop) (m : PyM S A) (k : A -> PyM S B) :
  py_preserves I m -> (forall a, py_preserves I (k a)) -> py_preserves I (py_bind m k).
Proof.
  intros Hm Hk s Hs. rewrite py_bind_run. specialize (Hm s Hs).
  destruct (m s) as [[a|e] s']; [by apply Hk|done].
Qed.

Lemma py_preserves_try {S A} (I : S -> Prop) (m : PyM S A) (h : PyExc -> PyM S A) :
  py_preserves I m -> (forall e, py_preserves I (h e)) -> py_preserves I (try_except m h).
Proof.
  intros Hm Hh s Hs. rewrite try_except_run. specialize (Hm s Hs).
  destruct (m s) as [[a|e] s']; [done|by apply Hh].
Qed.

Lemma py_preserves_for {S A} (I : S -> Prop) (body : A -> PyM S unit) (xs : list A) :
  (forall x, py_preserves I (body x)) -> py_preserves I (py_for body xs).
Proof.
  intros Hb. induction xs as [|x xs IH]; cbn [py_for];
    [apply py_preserves_ret|by apply py_preserves_bind].
Qed.

Lemma py_preserves_mapM {S A B} (I : S -> Prop) (f : A -> PyM S B) (xs : list A) :
  (forall x, py_preserves I (f x)) -> py_preserves I (py_mapM f xs).
Proof.
  intros Hf. induction xs as [|x xs IH]; cbn [py_mapM]; [apply py_preserves_ret|].
  apply py_preserves_bind; [done|]. intros y. apply py_preserves_bind; [done|].
  intros ys. apply py_preserves_ret.
Qed.

#[export] Hint Resolve py_preserves_ret py_preserves_raise py_preserves_bind
  py_preserves_try py_preserves_for py_preserves_mapM : py.

(** ** Shared tactics *)

(** Run one monadic step whose outcome is given by an equation [E]. *)
Ltac py_step E := rewrite ?py_bind_run, ?try_except_run, E.

(** Resolve every [decide] on integer arithmetic in the goal, discarding
    the branches [lia] refutes. *)
Ltac decide_lia :=
  repeat match goal with
         | |- context [decide ?P] => destruct (decide P); try (exfalso; lia)
         end.

(** ** Folds that accumulate *)

(** A fold whose step appends to a list component appends the pieces of
    every element, in order. *)
Lemma fold_left_proj_app {S B C} (f : S -> B -> S) (proj : S -> list C)
    (g : B -> list C) (xs : list B) (s : S) :
  (forall s x, proj (f s x) = proj s ++ g x) ->
  proj (fold_left f xs s) = proj s ++ concat (map g xs).
Proof.
  intros Hf. revert s. induction xs as [|x xs IH]; intros s; cbn.
  - by rewrite app_nil_r.
  - by rewrite IH, Hf, app_assoc.
Qed.

(** A fold whose step adds to an integer component adds the increments of
    every element. *)
Lemma fold_left_proj_add {S B} (f : S -> B -> S) (proj : S -> Z)
    (g : B -> Z) (xs : list B) (s : S) :
  (forall s x, proj (f s x) = (proj s + g x)%Z) ->
  proj (fold_left f xs s) = (proj s + fold_right (fun x acc => g x + acc) 0 xs)%Z.
Proof.
  intros Hf. revert s. induction xs as [|x xs IH]; intros s; cbn.
  - lia.
  - rewrite IH, Hf. lia.
Qed.

(** A filter that keeps no element of the list. *)
Lemma filter_none {A} (P : A -> Prop) `{!forall x, Decision (P x)} (l : list A) :
  (forall x, x ∈ l -> ~ P x) -> filter P l = [].
Proof.
  induction l as [|x l IH]; intros Hl; [done|]. rewrite filter_cons, decide_False.
  - apply IH. intros y Hy. apply Hl. by right.
  - apply Hl. by left.
Qed.

(** [filter] only looks at the elements of the list. *)
Lemma filter_ext_elem {A} (P Q : A -> Prop) `{!forall x, Decision (P x)}
    `{!forall x, Decision (Q x)} (l : list A) :
  (forall x, x ∈ l -> P x <-> Q x) -> filter P l = filter Q l.
Proof.
  intros Hl. induction l as [|x l IH]; [done|].
  rewrite !filter_cons, IH by (intros y Hy; apply Hl; by right).
  assert (Hx : P x <-> Q x) by (apply Hl; left).
  case_decide; case_decide; tauto.
Qed.
