(* ===== verification/PyBuiltins.v ===== *)
(** * Python, os.path, pandas and numpy built-ins used by the scripts

    [str] of an int ([py_str_int]) with its decimal parser and round trip,
    [sep.join] ([py_join]), [range] ([py_range], with the reference iterator
    [py_range_iter]), [os.path.join] ([os_path_join]),
    [pandas.Series.unique] ([py_unique]) and [numpy.mean] ([np_mean], over
    rationals, [None] for NaN), with the lemmas the components share. *)

From stdpp Require Import base list strings sets.
From Stdlib Require Import Ascii ZArith QArith DecimalString DecimalZ DecimalPos Lqa.
From S2P Require Import Prelude.

Local Open Scope Z_scope.

(** ** Characters and character predicates on strings *)

(** The double-quote character (ASCII code 34). *)
Definition dq : string := String "034"%char EmptyString.

(** stdpp makes [String.append] [simpl never]; its unfolding equations. *)
Lemma str_app_cons c s1 s2 : String c s1 +:+ s2 = String c (s1 +:+ s2).
Proof. reflexivity. Qed.

Lemma str_app_nil_l s : EmptyString +:+ s = s.
Proof. reflexivity. Qed.

Lemma str_app_assoc s1 s2 s3 : (s1 +:+ s2) +:+ s3 = s1 +:+ s2 +:+ s3.
Proof. induction s1 as [|c s1 IH]; [done|]. by rewrite !str_app_cons, IH. Qed.

Lemma str_app_nil_r s : s +:+ EmptyString = s.
Proof. induction s as [|c s IH]; [done|]. by rewrite str_app_cons, IH. Qed.

#[export] Hint Rewrite str_app_cons str_app_nil_l str_app_assoc str_app_nil_r : py_rw.

(** Every character of a string satisfies [p]. *)
Fixpoint str_forallb (p : ascii -> bool) (s : string) : bool :=
  match s with
  | EmptyString => true
  | String c s' => p c && str_forallb p s'
  end.

Lemma str_forallb_app p s1 s2 :
  str_forallb p (s1 +:+ s2) = str_forallb p s1 && str_forallb p s2.
Proof. induction s1 as [|c s1 IH]; [done|]. simpl. by rewrite IH, andb_assoc. Qed.

Definition is_digit (c : ascii) : bool :=
  bool_decide (48 <= Z.of_N (Ascii.N_of_ascii c) <= 57).

(** Characters that [str] of an int can produce. *)
Definition int_char (c : ascii) : bool := is_digit c || bool_decide (c = "-"%char).

(** ** [str(i)] for a Python int *)

(** Python prints an int in decimal, with a leading [-] when negative and
    without leading zeros; [Z.to_int] gives exactly these digits. *)
Definition py_str_int (z : Z) : string := NilZero.string_of_int (Z.to_int z).

(** The inverse, [int(s)] restricted to what [str] produces. *)
Definition py_int_of_string (s : string) : option Z :=
  Z.of_int <$> NilZero.int_of_string s.

Lemma Z_to_int_nonnil z :
  Z.to_int z <> Decimal.Pos Decimal.Nil /\ Z.to_int z <> Decimal.Neg Decimal.Nil.
Proof.
  destruct z as [|p|p]; cbn; split; try discriminate;
    intros [=]; by apply (Unsigned.to_uint_nonnil p).
Qed.

(** Round trip: parsing the printed int gives it back. *)
Lemma py_str_int_parse z : py_int_of_string (py_str_int z) = Some z.
Proof.
  unfold py_int_of_string, py_str_int. destruct (Z_to_int_nonnil z).
  rewrite NilZero.isi by done. cbn. by rewrite DecimalZ.of_to.
Qed.

Lemma py_str_int_inj z1 z2 : py_str_int z1 = py_str_int z2 -> z1 = z2.
Proof.
  intros H. apply (f_equal py_int_of_string) in H.
  rewrite !py_str_int_parse in H. congruence.
Qed.

Lemma string_of_uint_digits d :
  str_forallb is_digit (NilEmpty.string_of_uint d) = true.
Proof. induction d; cbn; rewrite ?IHd; done. Qed.

Lemma str_forallb_impl (p q : ascii -> bool) s :
  (forall c, p c = true -> q c = true) ->
  str_forallb p s = true -> str_forallb q s = true.
Proof.
  intros Hpq. induction s as [|c s IH]; [done|]. cbn.
  intros [Hc Hs]%andb_prop. by rewrite Hpq, IH.
Qed.

(** [str(i)] only contains digits and the minus sign. *)
Lemma py_str_int_chars z : str_forallb int_char (py_str_int z) = true.
Proof.
  assert (Hd : forall d, str_forallb int_char (NilZero.string_of_uint d) = true).
  { intros d. destruct d; try done; eapply str_forallb_impl;
      try (apply string_of_uint_digits);
      intros c Hc; unfold int_char; by rewrite Hc. }
  unfold py_str_int, NilZero.string_of_int. destruct (Z.to_int z); cbn; [apply Hd|].
  by rewrite Hd.
Qed.

(** ** [sep.join(xs)] *)

Fixpoint py_join (sep : string) (xs : list string) : string :=
  match xs with
  | [] => EmptyString
  | [x] => x
  | x :: xs' => x +:+ sep +:+ py_join sep xs'
  end.

Lemma py_join_cons sep x y ys :
  py_join sep (x :: y :: ys) = x +:+ sep +:+ py_join sep (y :: ys).
Proof. reflexivity. Qed.

(** Joining preserves a character predicate satisfied by the separator and
    by every piece. *)
Lemma py_join_forallb p sep xs :
  str_forallb p sep = true -> Forall (fun x => str_forallb p x = true) xs ->
  str_forallb p (py_join sep xs) = true.
Proof.
  intros Hs Hxs. induction Hxs as [|x xs Hx Hxs IH]; [done|].
  destruct xs as [|y ys]; [done|].
  rewrite py_join_cons, !str_forallb_app, Hx, Hs, IH. done.
Qed.

(** ** [range(start, stop, step)] *)

(** The number of items, as CPython's [compute_range_length] computes it. *)
Definition py_range_len (start stop step : Z) : Z :=
  if decide (0 < step) then
    (if decide (start < stop) then (stop - start - 1) / step + 1 else 0)
  else
    (if decide (stop < start) then (start - stop - 1) / (- step) + 1 else 0).

(** The items of a range object: item [i] is [start + i * step]. *)
Definition py_range_list (start stop step : Z) : list Z :=
  map (fun i => start + Z.of_nat i * step) (seq 0 (Z.to_nat (py_range_len start stop step))).

(** [list(range(start, stop, step))]: a zero step raises [ValueError]. *)
Definition py_range {S} (start stop step : Z) : PyM S (list Z) :=
  if decide (step = 0) then py_raise (ValueError "range() arg 3 must not be zero")
  else py_ret (py_range_list start stop step).

(** The reference semantics of iterating a range: yield the current value
    while it has not passed [stop], then add [step].  The recursion is
    bounded by [fuel]; [py_range_iter_equiv] shows the length of the range
    is enough fuel. *)
Fixpoint py_range_iter (fuel : nat) (cur stop step : Z) : list Z :=
  match fuel with
  | O => []
  | S fuel' =>
      if decide (0 < step /\ cur < stop \/ step < 0 /\ stop < cur)
      then cur :: py_range_iter fuel' (cur + step) stop step
      else []
  end.

Lemma py_range_len_nonneg start stop step : 0 <= py_range_len start stop step.
Proof.
  unfold py_range_len.
  repeat case_decide; try lia.
  - pose proof (Z.div_pos (stop - start - 1) step ltac:(lia) ltac:(lia)); lia.
  - destruct (decide (step = 0)) as [->|]; [rewrite Z.div_0_r; lia|].
    pose proof (Z.div_pos (start - stop - 1) (- step) ltac:(lia) ltac:(lia)); lia.
Qed.

Lemma div_sub_self a b : 0 < b -> (a - b) / b = a / b - 1.
Proof.
  intros. replace (a - b) with (a + (-1) * b) by lia.
  rewrite Z_div_plus_full by lia. lia.
Qed.

(** One iteration step: a range that yields [start] has one more item than
    the range from [start + step]; a range that does not is empty. *)
Lemma py_range_len_step start stop step :
  step <> 0 ->
  if decide (0 < step /\ start < stop \/ step < 0 /\ stop < start)
  then py_range_len start stop step = py_range_len (start + step) stop step + 1
  else py_range_len start stop step = 0.
Proof.
  intros Hs. unfold py_range_len.
  replace (stop - (start + step) - 1) with (stop - start - 1 - step) by lia.
  replace (start + step - stop - 1) with (start - stop - 1 - - step) by lia.
  repeat case_decide; try lia.
  - rewrite div_sub_self by lia. lia.
  - rewrite (Z.div_small (stop - start - 1) step) by lia. lia.
  - rewrite div_sub_self by lia. lia.
  - rewrite (Z.div_small (start - stop - 1) (- step)) by lia. lia.
Qed.

Lemma py_range_list_cons start stop step :
  0 < py_range_len start stop step ->
  py_range_list start stop step =
  start :: map (fun i => (start + step) + Z.of_nat i * step)
               (seq 0 (Z.to_nat (py_range_len start stop step - 1))).
Proof.
  intros Hl. unfold py_range_list.
  replace (Z.to_nat (py_range_len start stop step))
    with (S (Z.to_nat (py_range_len start stop step - 1))) by lia.
  cbn [seq map]. f_equal; [lia|]. rewrite <- seq_shift, map_map.
  apply map_ext. intros i. lia.
Qed.

(** The items of a range computed from CPython's length formula are those
    its iterator yields, for any fuel at least that length: the fuel never
    runs out first. *)
Lemma py_range_iter_equiv fuel start stop step :
  step <> 0 -> (Z.to_nat (py_range_len start stop step) <= fuel)%nat ->
  py_range_iter fuel start stop step = py_range_list start stop step.
Proof.
  intros Hs. revert start. induction fuel as [|fuel IH]; intros start Hf.
  - unfold py_range_list. replace (Z.to_nat _) with 0%nat by lia. done.
  - cbn [py_range_iter]. pose proof (py_range_len_step start stop step Hs) as Hstep.
    pose proof (py_range_len_nonneg (start + step) stop step).
    case_decide as Hc.
    + rewrite py_range_list_cons by lia. f_equal.
      rewrite IH by lia. unfold py_range_list. do 3 f_equal. lia.
    + unfold py_range_list. rewrite Hstep. done.
Qed.

Lemma length_py_range_list start stop step :
  length (py_range_list start stop step) = Z.to_nat (py_range_len start stop step).
Proof. unfold py_range_list. by rewrite length_map, length_seq. Qed.

Lemma py_range_list_lookup start stop step i :
  (i < Z.to_nat (py_range_len start stop step))%nat ->
  py_range_list start stop step !! i = Some (start + Z.of_nat i * step).
Proof.
  intros Hi. unfold py_range_list.
  rewrite list_lookup_fmap, lookup_seq_lt by done. done.
Qed.

(** ** [os.path.join(a, b)] (posixpath) *)

Fixpoint str_last (s : string) : option ascii :=
  match s with
  | EmptyString => None
  | String c EmptyString => Some c
  | String _ s' => str_last s'
  end.

(** An absolute [b] replaces [a]; otherwise [b] is appended to [a], with a
    slash in between unless [a] is empty or already ends with one. *)
Definition os_path_join (a b : string) : string :=
  match b with
  | String "/"%char _ => b
  | _ =>
      if bool_decide (a = EmptyString) || bool_decide (str_last a = Some "/"%char)
      then a +:+ b
      else a +:+ "/" +:+ b
  end.

(** ** [pandas.Series.unique()]: distinct values in order of appearance *)

Section Unique.
Context {A : Type} `{EqDecision A}.

Fixpoint unique_from (seen : list A) (l : list A) : list A :=
  match l with
  | [] => []
  | x :: l' =>
      if decide (x ∈ seen) then unique_from seen l'
      else x :: unique_from (x :: seen) l'
  end.

Definition py_unique (l : list A) : list A := unique_from [] l.

Lemma unique_from_spec seen l x :
  x ∈ unique_from seen l <-> x ∈ l /\ x ∉ seen.
Proof.
  revert seen. induction l as [|y l IH]; intros seen; cbn.
  - set_solver.
  - case_decide as Hin.
    + rewrite IH, elem_of_cons. destruct (decide (x = y)) as [->|?]; tauto.
    + rewrite elem_of_cons, IH, !elem_of_cons.
      destruct (decide (x = y)) as [->|?]; tauto.
Qed.

Lemma unique_from_NoDup seen l : NoDup (unique_from seen l).
Proof.
  revert seen. induction l as [|y l IH]; intros seen; cbn; [constructor|].
  case_decide; [done|]. constructor; [|done].
  rewrite unique_from_spec. set_solver.
Qed.

Lemma elem_of_py_unique l x : x ∈ py_unique l <-> x ∈ l.
Proof. unfold py_unique. rewrite unique_from_spec. set_solver. Qed.

Lemma py_unique_NoDup l : NoDup (py_unique l).
Proof. apply unique_from_NoDup. Qed.

Lemma decide_iff_if {B} (P Q : Prop) `{!Decision P, !Decision Q} (a b : B) :
  (P <-> Q) -> (if decide P then a else b) = (if decide Q then a else b).
Proof. intros H. repeat case_decide; naive_solver. Qed.

(** Appending an element appends it to the result when it is new. *)
Lemma unique_from_snoc seen l x :
  unique_from seen (l ++ [x]) =
  unique_from seen l ++ (if decide (x ∈ seen \/ x ∈ l) then [] else [x]).
Proof.
  revert seen. induction l as [|y l IH]; intros seen; cbn.
  - repeat case_decide; try done; exfalso; set_solver.
  - destruct (decide (y ∈ seen)); rewrite IH; cbn [app]; [|f_equal]; f_equal;
      apply decide_iff_if; set_solver.
Qed.

(** [pandas.Series.unique] keeps the first occurrence of each value,
    in order of appearance: it is stdpp's [remove_dups], which keeps last
    occurrences, on the reversed list, reversed back. *)
Lemma py_unique_remove_dups l : py_unique l = reverse (remove_dups (reverse l)).
Proof.
  induction l as [|x l IH] using rev_ind; [done|].
  unfold py_unique in *. rewrite unique_from_snoc, IH, reverse_snoc. cbn [remove_dups].
  destruct (decide_rel _ x (reverse l)) as [Hx|Hx]; rewrite elem_of_reverse in Hx;
    case_decide; try set_solver.
  - by rewrite app_nil_r.
  - by rewrite reverse_cons.
Qed.
End Unique.

(** ** [numpy.mean] over a column of costs *)

(** Costs are compared up to [Qeq]; [≡] on [Q], [option Q] and [list Q] is
    stdpp's setoid equality built on it. *)
#[export] Instance Q_equiv : Equiv Q := Qeq.
#[export] Instance Q_equiv_Equivalence : Equivalence (≡@{Q}) := Q_Setoid.

Definition q_sum (xs : list Q) : Q := fold_right Qplus 0%Q xs.

(** The mean of a column; NaN ([None]) for an empty column, as numpy
    returns [nan] (with a warning) for the mean of an empty array. *)
Definition np_mean (xs : list Q) : option Q :=
  match xs with
  | [] => None
  | _ => Some (q_sum xs / inject_Z (Z.of_nat (length xs)))%Q
  end.

#[export] Instance q_sum_proper : Proper ((≡) ==> (≡)) q_sum.
Proof.
  intros xs ys H. induction H as [|x y xs ys Hxy _ IH]; [done|].
  cbn. unfold equiv, Q_equiv in *. by rewrite Hxy, IH.
Qed.

Lemma q_sum_perm xs ys : xs ≡ₚ ys -> (q_sum xs == q_sum ys)%Q.
Proof.
  induction 1 as [|x xs ys _ IH|x y xs|xs ys zs _ IH1 _ IH2]; cbn.
  - reflexivity.
  - by rewrite IH.
  - ring.
  - by rewrite IH1.
Qed.

#[export] Instance np_mean_proper : Proper ((≡) ==> (≡)) np_mean.
Proof.
  intros xs ys H. unfold np_mean.
  pose proof (Forall2_length _ _ _ (proj1 (list_equiv_Forall2 _ _) H)) as Hl.
  destruct xs, ys; inversion H; subst; constructor.
  unfold equiv, Q_equiv. rewrite (q_sum_proper _ _ H). by rewrite Hl.
Qed.

(** The mean does not depend on the order of the column. *)
#[export] Instance np_mean_perm : Proper ((≡ₚ) ==> (≡)) np_mean.
Proof.
  intros xs ys H. unfold np_mean.
  destruct xs, ys; try (apply Permutation_length in H; discriminate); constructor.
  unfold equiv, Q_equiv. rewrite (q_sum_perm _ _ H).
  by rewrite (Permutation_length H).
Qed.

(** The length of a column as a rational. *)
Lemma inject_length_succ {A} (x : A) (xs : list A) :
  (inject_Z (Z.of_nat (length (x :: xs))) == 1 + inject_Z (Z.of_nat (length xs)))%Q.
Proof. cbn [length]. rewrite Nat2Z.inj_succ, <- Z.add_1_l, inject_Z_plus. reflexivity. Qed.

Lemma q_sum_bounds (lo hi : Q) (xs : list Q) :
  Forall (fun x => lo <= x <= hi)%Q xs ->
  (inject_Z (Z.of_nat (length xs)) * lo <= q_sum xs <= inject_Z (Z.of_nat (length xs)) * hi)%Q.
Proof.
  induction 1 as [|x xs Hx _ IH].
  - cbn. unfold Qle. cbn. lia.
  - rewrite inject_length_succ. cbn [q_sum fold_right] in *. unfold q_sum in IH. lra.
Qed.

(** The mean of a non-empty column lies between any bounds of its values. *)
Lemma np_mean_bounds (lo hi v : Q) (xs : list Q) :
  Forall (fun x => lo <= x <= hi)%Q xs -> np_mean xs = Some v -> (lo <= v <= hi)%Q.
Proof.
  intros Hb Hm. destruct xs as [|x xs]; [done|]. injection Hm as <-.
  pose proof (q_sum_bounds lo hi _ Hb) as [Hl Hh].
  assert (Hn : (0 < inject_Z (Z.of_nat (length (x :: xs))))%Q).
  { rewrite inject_length_succ. assert (0 <= inject_Z (Z.of_nat (length xs)))%Q.
    { unfold Qle. cbn. lia. } lra. }
  split.
  - apply Qle_shift_div_l; [done|]. by rewrite Qmult_comm.
  - apply Qle_shift_div_r; [done|]. by rewrite Qmult_comm.
Qed.
