(* ===== verification/Qgis.v ===== *)
(** * The QGIS world the scripts act on

    The scripts see QGIS through [QgsProject.instance().addMapLayer],
    [processing.run] and [time.sleep].  [World] holds what these change:
    the project's layer list, the log of processing runs and the clock.
    Grid features carry the two attributes the scripts read ([id],
    [isocode]); least-cost-path output features carry an attribute table.

    The project's layers have names; [mapLayersByName] finds them by name
    and [layer_features] reads a vector layer's features.

    Two processing algorithms are used.  "native:extractbyexpression" is
    modelled from the QGIS expression grammar for the one expression shape
    the scripts generate, [id IN (i1, i2, ...)]: [parse_in_expr] accepts the
    expression and yields the id list, and the output layer holds the input
    features whose id is in the list, in input order; an expression that
    does not parse (QGIS requires a non-empty list after [IN]) makes the run
    raise [QgsProcessingException].  The "Cost distance analysis:Least Cost
    Path" plugin is a parameter [LcpSolver] of the model. *)

From stdpp Require Import base list strings.
From Stdlib Require Import Ascii String ZArith QArith.
From S2P Require Import Prelude PyBuiltins.

Local Open Scope py_scope.

(** ** Features and layers *)

(** A centroid of the 1-by-1 degree land surface grid ([grid1dg_ctrd_cntry]):
    the attributes [id] and [isocode] read at lines 174-175. *)
Record GridFeature := mkGridFeature { gf_id : Z; gf_isocode : string }.

#[export] Instance GridFeature_eq_dec : EqDecision GridFeature.
Proof. solve_decision. Defined.

(** A feature of the least-cost-path output layer: its attribute table. *)
Definition LcpFeature : Type := list (string * Q).

(** [f[name]] on a feature: the attribute, or [KeyError]. *)
Definition lookup_attr (f : LcpFeature) (name : string) : res Q :=
  match list_find (fun kv => kv.1 = name) f with
  | Some (_, (_, v)) => Ok v
  | None => Exc (KeyError name)
  end.

Definition feature_attr {S} (f : LcpFeature) (name : string) : PyM S Q :=
  py_lift_res (lookup_attr f name).

(** The project's layers: a vector layer the session loaded, with its
    name, and the layers a script adds. *)
Inductive MapLayer : Type :=
| VectorLayer (name : string) (feats : list GridFeature)
| MemoryVectorLayer (feats : list GridFeature)
| MemoryLcpLayer (feats : list LcpFeature)
| RasterLayer (source name : string).

(** [layer.name()]; the memory layers the scripts add are taken to have
    none of the names the scripts look up. *)
Definition layer_name (l : MapLayer) : option string :=
  match l with
  | VectorLayer name _ | RasterLayer _ name => Some name
  | _ => None
  end.

(** [layer.getFeatures()] on a layer of grid points; a raster layer has no
    such method. *)
Definition layer_features (l : MapLayer) : res (list GridFeature) :=
  match l with
  | VectorLayer _ feats | MemoryVectorLayer feats => Ok feats
  | MemoryLcpLayer _ => Exc (KeyError "id")
  | RasterLayer _ _ => Exc (AttributeError "'QgsRasterLayer' object has no attribute 'getFeatures'")
  end.

(** One call of [processing.run], with the parameters that determine it. *)
Inductive ProcRun : Type :=
| RunExtractByExpression (input expression : string)
| RunLeastCostPath (cost_raster : string) (start_ids end_ids : list Z)
| RunRasterCalculator (expression : string) (layers : list string) (output : string).

#[export] Instance ProcRun_eq_dec : EqDecision ProcRun.
Proof. solve_decision. Defined.

(** ** The world *)

Record World := mkWorld {
  w_layers : list MapLayer;   (** [QgsProject.instance()] map layers, in order *)
  w_runs : list ProcRun;      (** every [processing.run], in order *)
  w_clock : Z                 (** seconds slept *)
}.

Definition log_run (r : ProcRun) : PyM World unit :=
  py_modify (fun w => mkWorld (w_layers w) (w_runs w ++ [r]) (w_clock w)).

(** [QgsProject.instance().addMapLayer(l)]. *)
Definition addMapLayer (l : MapLayer) : PyM World unit :=
  py_modify (fun w => mkWorld (w_layers w ++ [l]) (w_runs w) (w_clock w)).

(** [QgsProject.instance().mapLayersByName(name)]: the layers with that
    name.  QGIS lists them in the order of their layer ids; the model
    lists them in the order they were added, and the theorems that use it
    assume at most one such layer. *)
Definition mapLayersByName (name : string) : PyM World (list MapLayer) :=
  fun w => (Ok (filter (fun l => layer_name l = Some name) (w_layers w)), w).

(** [time.sleep(secs)]. *)
Definition time_sleep (secs : Z) : PyM World unit :=
  py_modify (fun w => mkWorld (w_layers w) (w_runs w) (w_clock w + secs)).

(** ** The expression [id IN (i1, i2, ...)] *)

Fixpoint strip_prefix (p s : string) : option string :=
  match p, s with
  | EmptyString, _ => Some s
  | String c p', String d s' => if decide (c = d) then strip_prefix p' s' else None
  | String _ _, EmptyString => None
  end.

(** An integer literal from its characters, accumulated in reverse. *)
Definition int_token (acc : list ascii) : option Z :=
  py_int_of_string (string_of_list_ascii (rev acc)).

(** The literal list after [IN (]: literals separated by commas, closed by
    the final [")"]; a space may precede a literal. *)
Fixpoint parse_items (acc : list ascii) (s : string) : option (list Z) :=
  match s with
  | EmptyString => None
  | String c s' =>
      if decide (c = ")"%char) then
        match s' with
        | EmptyString => z ← int_token acc; Some [z]
        | String _ _ => None
        end
      else if decide (c = ","%char) then
        z ← int_token acc; zs ← parse_items [] s'; Some (z :: zs)
      else if decide (c = " "%char) then
        match acc with
        | [] => parse_items [] s'
        | _ :: _ => None
        end
      else parse_items (c :: acc) s'
  end.

Definition in_expr_prefix : string := "id IN (".

(** The ids selected by an [id IN (...)] expression, or [None] for a parser
    error. *)
Definition parse_in_expr (e : string) : option (list Z) :=
  rest ← strip_prefix in_expr_prefix e; parse_items [] rest.

(** ** Processing algorithms *)

(** [processing.run("native:extractbyexpression", {INPUT, EXPRESSION,
    OUTPUT: 'memory:'})]: the features of [input] matching the expression,
    in input order. *)
Definition extractbyexpression (input_path : string) (input : list GridFeature)
    (expr : string) : PyM World (list GridFeature) :=
  log_run (RunExtractByExpression input_path expr) ;;
  match parse_in_expr expr with
  | Some ids => py_ret (filter (fun f => gf_id f ∈ ids) input)
  | None => py_raise (QgsProcessingException "Evaluation error in expression")
  end.

(** The least-cost-path plugin: from the cost raster, the start layer and
    the end layer, the path features or a failure. *)
Definition LcpSolver : Type :=
  string -> list GridFeature -> list GridFeature -> res (list LcpFeature).

(** [processing.run("Cost distance analysis:Least Cost Path", {...})]. *)
Definition least_cost_path (solver : LcpSolver) (cost_raster : string)
    (start ends : list GridFeature) : PyM World (list LcpFeature) :=
  log_run (RunLeastCostPath cost_raster (map gf_id start) (map gf_id ends)) ;;
  py_lift_res (solver cost_raster start ends).

(** [processing.run("qgis:rastercalculator", {EXPRESSION, LAYERS, OUTPUT,
    ...})]: computes the raster into [output] and returns its path as
    [OUTPUT].  The raster values are not modelled. *)
Definition rastercalculator (expression : string) (layers : list string) (output : string)
    : PyM World string :=
  log_run (RunRasterCalculator expression layers output) ;;
  py_ret output.
