(* ===== verification/Neighbors.v ===== *)
(** * Neighbour resolution: [bufpoint_id_generator] and [pointexpr_generator]

    Lines 158-164 of the source.  A point's neighbour ids are its id plus
    each offset of a fixed list, and the selection is a QGIS expression
    [id IN (...)] over those ids.  The theorems show that the generated
    expressions parse back to exactly the id lists they were built from,
    so extracting with them keeps exactly the grid features whose id is in
    the list (ids absent from the grid are silently dropped), and that an
    empty offset list yields an expression QGIS rejects. *)

From stdpp Require Import base list strings.
From Stdlib Require Import Ascii String ZArith.
From S2P Require Import Prelude PyBuiltins Qgis.

Local Open Scope py_scope.

(** ** The generators *)

(** The dictionary returned by [bufpoint_id_generator]. *)
Record BufPoints := mkBufPoints {
  buf_id_list : list Z;
  expr_extrbyattr : string
}.

(** [bufpoint_id_generator(id, list_id_correction)]: the ids [id + key] for
    each key of the correction list, and the expression selecting them. *)
Definition bufpoint_id_generator (id : Z) (list_id_correction : list Z) : BufPoints :=
  let id_list := map (fun key => id + key)%Z list_id_correction in
  mkBufPoints id_list
    ("id IN (" +:+ py_join ", " (map py_str_int id_list) +:+ ")").

(** [pointexpr_generator(id)]. *)
Definition pointexpr_generator (id : Z) : string :=
  "id IN (" +:+ py_str_int id +:+ ")".

(** ** Parsing the generated literals *)

Lemma int_char_not_special c :
  int_char c = true -> c <> ")"%char /\ c <> ","%char /\ c <> " "%char.
Proof.
  unfold int_char, is_digit. intros [Hd|Hm]%orb_true_iff.
  - apply bool_decide_eq_true in Hd.
    repeat split; intros ->; cbn in Hd; lia.
  - apply bool_decide_eq_true in Hm. subst. repeat split; discriminate.
Qed.

(** The characters of a literal are accumulated. *)
Lemma parse_items_token acc t r :
  str_forallb int_char t = true ->
  parse_items acc (t +:+ r) = parse_items (rev (list_ascii_of_string t) ++ acc) r.
Proof.
  revert acc. induction t as [|c t IH]; intros acc Ht; [done|].
  cbn in Ht. apply andb_prop in Ht as [Hc Ht].
  destruct (int_char_not_special c Hc) as (H1 & H2 & H3).
  rewrite str_app_cons. cbn [parse_items].
  rewrite !decide_False by done. rewrite IH by done.
  cbn [list_ascii_of_string rev]. by rewrite <- app_assoc.
Qed.

Lemma int_token_str z acc :
  acc = rev (list_ascii_of_string (py_str_int z)) -> int_token acc = Some z.
Proof.
  intros ->. unfold int_token.
  by rewrite rev_involutive, string_of_list_ascii_of_string, py_str_int_parse.
Qed.

Lemma parse_items_last z :
  parse_items [] (py_str_int z +:+ ")") = Some [z].
Proof.
  rewrite parse_items_token by apply py_str_int_chars. cbn [parse_items].
  rewrite decide_True by done. by rewrite (int_token_str z) by apply app_nil_r.
Qed.

Lemma parse_items_sep z r :
  parse_items [] (py_str_int z +:+ ", " +:+ r) =
  zs ← parse_items [] r; Some (z :: zs).
Proof.
  rewrite parse_items_token by apply py_str_int_chars.
  rewrite !str_app_cons, str_app_nil_l. cbn [parse_items].
  rewrite decide_False by done. rewrite decide_True by done.
  rewrite (int_token_str z (rev (list_ascii_of_string (py_str_int z)) ++ []))
    by apply app_nil_r.
  cbn [mbind option_bind].
  rewrite decide_False by done. rewrite decide_False by done.
  rewrite decide_True by done. done.
Qed.

(** The printed literal list, closed by [")"], parses back to the ids. *)
Lemma parse_items_join ids :
  ids <> [] ->
  parse_items [] (py_join ", " (map py_str_int ids) +:+ ")") = Some ids.
Proof.
  induction ids as [|z ids IH]; intros Hne; [done|].
  destruct ids as [|z' ids].
  - apply parse_items_last.
  - cbn [map]. rewrite py_join_cons, !str_app_assoc, parse_items_sep.
    cbn [map] in IH. rewrite IH by done. done.
Qed.

Lemma strip_in_expr_prefix r : strip_prefix in_expr_prefix (in_expr_prefix +:+ r) = Some r.
Proof. reflexivity. Qed.

Lemma parse_in_expr_prefixed r :
  parse_in_expr ("id IN (" +:+ r) = parse_items [] r.
Proof. reflexivity. Qed.

(** ** The generated expressions denote their id lists *)

Lemma parse_bufpoint_expr (id : Z) (offsets : list Z) :
  offsets <> [] ->
  parse_in_expr (expr_extrbyattr (bufpoint_id_generator id offsets)) =
  Some (buf_id_list (bufpoint_id_generator id offsets)).
Proof.
  intros Hne. cbn [expr_extrbyattr buf_id_list bufpoint_id_generator].
  rewrite parse_in_expr_prefixed. apply parse_items_join.
  by destruct offsets.
Qed.

(** C18: the expression built by [bufpoint_id_generator] parses back to the
    list of neighbour ids it returns, when the offset list is non-empty. *)
Theorem bufpoint_expr_roundtrip (id : Z) (offsets : list Z) :
  offsets <> [] ->
  parse_in_expr (expr_extrbyattr (bufpoint_id_generator id offsets)) =
  Some (buf_id_list (bufpoint_id_generator id offsets)).
Proof. apply parse_bufpoint_expr. Qed.

(** With an empty offset list the expression is [id IN ()], which QGIS
    rejects. *)
Lemma bufpoint_expr_empty (id : Z) :
  parse_in_expr (expr_extrbyattr (bufpoint_id_generator id [])) = None.
Proof. reflexivity. Qed.

Lemma pointexpr_roundtrip (id : Z) :
  parse_in_expr (pointexpr_generator id) = Some [id].
Proof. unfold pointexpr_generator. rewrite parse_in_expr_prefixed. apply parse_items_last. Qed.

(** The neighbour ids are the point id shifted by each offset, in offset
    order. *)
Lemma buf_id_list_spec (id : Z) (offsets : list Z) :
  buf_id_list (bufpoint_id_generator id offsets) = map (Z.add id) offsets.
Proof. reflexivity. Qed.

(** ** Extraction with the generated expressions *)

Definition world_log (w : World) (r : ProcRun) : World :=
  mkWorld (w_layers w) (w_runs w ++ [r]) (w_clock w).

Lemma extract_bufpoints_run (path : string) (feats : list GridFeature) (id : Z)
    (offsets : list Z) (w : World) :
  offsets <> [] ->
  extractbyexpression path feats (expr_extrbyattr (bufpoint_id_generator id offsets)) w =
  (Ok (filter (fun f => (gf_id f - id)%Z ∈ offsets) feats),
   world_log w (RunExtractByExpression path
                  (expr_extrbyattr (bufpoint_id_generator id offsets)))).
Proof.
  intros Hne. unfold extractbyexpression. rewrite py_bind_run.
  cbn [log_run py_modify]. rewrite parse_bufpoint_expr by done.
  unfold py_ret, world_log. cbn [buf_id_list bufpoint_id_generator]. do 2 f_equal.
  apply list_filter_iff. intros f. rewrite list_elem_of_fmap.
  split; [intros (o & -> & Ho); by replace (id + o - id)%Z with o by lia|].
  intros Ho. exists (gf_id f - id)%Z. split; [lia|done].
Qed.

(** C19: extracting the end points of a point keeps, in file order, exactly
    the grid features whose id is the point id plus some offset; the run is
    logged. *)
Theorem extract_bufpoints (path : string) (feats : list GridFeature) (id : Z)
    (offsets : list Z) (w : World) :
  offsets <> [] ->
  extractbyexpression path feats (expr_extrbyattr (bufpoint_id_generator id offsets)) w =
  (Ok (filter (fun f => (gf_id f - id)%Z ∈ offsets) feats),
   world_log w (RunExtractByExpression path
                  (expr_extrbyattr (bufpoint_id_generator id offsets)))).
Proof. apply extract_bufpoints_run. Qed.

(** Extracting with an empty offset list raises, after logging the run. *)
Lemma extract_bufpoints_empty (path : string) (feats : list GridFeature) (id : Z) (w : World) :
  extractbyexpression path feats (expr_extrbyattr (bufpoint_id_generator id [])) w =
  (Exc (QgsProcessingException "Evaluation error in expression"),
   world_log w (RunExtractByExpression path "id IN ()")).
Proof. reflexivity. Qed.

(** Extracting the start point keeps the grid features with that id. *)
Lemma extract_start (path : string) (feats : list GridFeature) (id : Z) (w : World) :
  extractbyexpression path feats (pointexpr_generator id) w =
  (Ok (filter (fun f => gf_id f = id) feats),
   world_log w (RunExtractByExpression path (pointexpr_generator id))).
Proof.
  unfold extractbyexpression. rewrite py_bind_run. cbn [log_run py_modify].
  rewrite pointexpr_roundtrip. unfold py_ret, world_log. do 2 f_equal.
  apply list_filter_iff. intros f. by rewrite list_elem_of_singleton.
Qed.

Lemma bufpoint_expr_roundtrip_witness :
  parse_in_expr (expr_extrbyattr (bufpoint_id_generator 2 [(-1)%Z; 1%Z])) =
  Some (buf_id_list (bufpoint_id_generator 2 [(-1)%Z; 1%Z])).
Proof. apply bufpoint_expr_roundtrip. discriminate. Defined.

Lemma extract_bufpoints_witness :
  extractbyexpression "grid.shp" [mkGridFeature 1 "AAA"; mkGridFeature 3 "BBB"; mkGridFeature 7 "CCC"]
    (expr_extrbyattr (bufpoint_id_generator 2 [(-1)%Z; 1%Z])) (mkWorld [] [] 0) =
  (Ok (filter (fun f => (gf_id f - 2)%Z ∈ [(-1)%Z; 1%Z])
              [mkGridFeature 1 "AAA"; mkGridFeature 3 "BBB"; mkGridFeature 7 "CCC"]),
   world_log (mkWorld [] [] 0)
     (RunExtractByExpression "grid.shp" (expr_extrbyattr (bufpoint_id_generator 2 [(-1)%Z; 1%Z])))).
Proof. apply extract_bufpoints. discriminate. Defined.
