(* ===== verification/Grid.v ===== *)
(** * Neighbour offsets on a row-major grid

    The specification (sections 4.2 and 9) reads the offset list
    [bufcoordchng_rad2dg_grid1dg] as a fixed ring of cells on a regular
    grid whose ids are assigned row by row: the cell in row [r] and column
    [c] of a grid [W] columns wide has id [r * W + c] ([cell_id]), and the
    id [i] is the cell [(i / W, i mod W)] ([cell_of]).  A ring of cells
    around a point is a list of (row, column) steps ([ring_deltas]); its
    offsets are [dr * W + dc] ([ring_offsets]).

    [bufpoint_id_generator] adds the offsets to the point id.  The
    theorems decode the ids it derives: a step that leaves the grid
    through the west or east edge is carried into the adjacent row
    ([wrap_cell]), so for a point away from the edges the ids are exactly
    the cells of the ring, while for a point on the west edge the western
    steps land on the east edge one row up: not on the same row, as a
    wrap-around of longitude would, and not outside the catalog, as
    section 9 expects.

    The offsets of the scripts are a name of the QGIS console session, not
    defined in the repository; [ring_deltas], the eight cells at distance
    one, is an example ring chosen to state the theorems, not a reading of
    the session's list.  [cell_of_bufpoints] holds for any ring whose steps
    move at most one column. *)

From stdpp Require Import base list.
From Stdlib Require Import ZArith.
From S2P Require Import Prelude PyBuiltins Qgis Neighbors.

Section RowMajor.
Context (W : Z).

Definition cell_id (r c : Z) : Z := (r * W + c)%Z.

Definition cell_of (i : Z) : Z * Z := (i / W, i mod W)%Z.

(** The offsets of a ring given by its (row, column) steps. *)
Definition ring_offsets (deltas : list (Z * Z)) : list Z :=
  map (fun d => d.1 * W + d.2)%Z deltas.

(** The cell a step from row [r], column [c] decodes to: a column below 0
    or beyond the last one is carried into the previous or next row. *)
Definition wrap_cell (r c : Z) : Z * Z :=
  if decide (c < 0)%Z then (r - 1, c + W)%Z
  else if decide (W <= c)%Z then (r + 1, c - W)%Z
  else (r, c).

(** The eight cells around a point. *)
Definition ring_deltas : list (Z * Z) :=
  [(-1, -1); (-1, 0); (-1, 1); (0, -1); (0, 1); (1, -1); (1, 0); (1, 1)]%Z.

Context (HW : (0 < W)%Z).

Lemma cell_of_id r c : (0 <= c < W)%Z -> cell_of (cell_id r c) = (r, c).
Proof.
  intros Hc. unfold cell_of, cell_id. f_equal.
  - rewrite Z.div_add_l by lia. rewrite Z.div_small by lia. lia.
  - rewrite Z.add_comm, Z_mod_plus_full. by apply Z.mod_small.
Qed.

Lemma cell_id_shift r c dr dc :
  (cell_id r c + (dr * W + dc))%Z = cell_id (r + dr) (c + dc).
Proof. unfold cell_id. ring. Qed.

(** One step of at most one column from a cell of the grid. *)
Lemma cell_of_step r c dr dc :
  (0 <= c < W)%Z -> (-1 <= dc <= 1)%Z ->
  cell_of (cell_id r c + (dr * W + dc))%Z = wrap_cell (r + dr) (c + dc).
Proof.
  intros Hc Hd. rewrite cell_id_shift. unfold wrap_cell.
  case_decide as Hlo; [|case_decide as Hhi].
  - replace (cell_id (r + dr) (c + dc)) with (cell_id (r + dr - 1) (c + dc + W))
      by (unfold cell_id; ring).
    apply cell_of_id. lia.
  - replace (cell_id (r + dr) (c + dc)) with (cell_id (r + dr + 1) (c + dc - W))
      by (unfold cell_id; ring).
    apply cell_of_id. lia.
  - apply cell_of_id. lia.
Qed.

Lemma cell_of_bufpoints r c deltas :
  (0 <= c < W)%Z -> Forall (fun d => -1 <= d.2 <= 1)%Z deltas ->
  map cell_of (buf_id_list (bufpoint_id_generator (cell_id r c) (ring_offsets deltas))) =
  map (fun d => wrap_cell (r + d.1) (c + d.2))%Z deltas.
Proof.
  intros Hc Hd. rewrite buf_id_list_spec. unfold ring_offsets. rewrite !map_map.
  apply map_ext_in. intros d Hin%list_elem_of_In.
  apply cell_of_step; [done|]. by eapply Forall_forall in Hd.
Qed.
End RowMajor.

Lemma ring_deltas_cols : Forall (fun d => -1 <= d.2 <= 1)%Z ring_deltas.
Proof. repeat constructor; cbn; lia. Qed.

(** C23: on a grid of [W] columns, for a point of row [r] strictly between
    the first and the last column, the ids [bufpoint_id_generator] derives
    from the ring offsets are exactly the ids of the eight surrounding
    cells, in ring order. *)
Theorem ring_interior (W r c : Z) :
  (0 < c < W - 1)%Z ->
  map (cell_of W) (buf_id_list (bufpoint_id_generator (cell_id W r c) (ring_offsets W ring_deltas))) =
  map (fun d => (r + d.1, c + d.2))%Z ring_deltas.
Proof.
  intros Hc. rewrite cell_of_bufpoints by (lia || apply ring_deltas_cols).
  cbn [map ring_deltas fst snd]. unfold wrap_cell. decide_lia. reflexivity.
Qed.

(** C24: for a point on the west edge (column 0) of row [r], the western
    steps of the ring land on the east edge one row up: rows [r - 2],
    [r - 1] and [r] instead of [r - 1], [r] and [r + 1]. *)
Theorem ring_west_edge (W r : Z) :
  (3 <= W)%Z ->
  map (cell_of W) (buf_id_list (bufpoint_id_generator (cell_id W r 0) (ring_offsets W ring_deltas))) =
  [(r - 2, W - 1); (r - 1, 0); (r - 1, 1); (r - 1, W - 1);
   (r, 1); (r, W - 1); (r + 1, 0); (r + 1, 1)]%Z.
Proof.
  intros HW. rewrite cell_of_bufpoints by (lia || apply ring_deltas_cols).
  cbn [map ring_deltas fst snd]. unfold wrap_cell. decide_lia.
  repeat match goal with
         | |- _ :: _ = _ :: _ => f_equal
         | |- (_, _) = (_, _) => f_equal
         end; lia.
Qed.

(** On a one-degree grid of 360 columns, the west neighbour of the first
    cell of row 10 is the last cell of row 9. *)
Example west_edge_demo : cell_of 360 (cell_id 360 10 0 + (-1)) = (9%Z, 359%Z).
Proof. reflexivity. Qed.

Lemma ring_interior_witness :
  map (cell_of 360) (buf_id_list (bufpoint_id_generator (cell_id 360 10 5) (ring_offsets 360 ring_deltas))) =
  map (fun d => (10 + d.1, 5 + d.2))%Z ring_deltas.
Proof. apply ring_interior. lia. Defined.

Lemma ring_west_edge_witness :
  map (cell_of 360) (buf_id_list (bufpoint_id_generator (cell_id 360 10 0) (ring_offsets 360 ring_deltas))) =
  [(10 - 2, 360 - 1); (10 - 1, 0); (10 - 1, 1); (10 - 1, 360 - 1);
   (10, 1); (10, 360 - 1); (10 + 1, 0); (10 + 1, 1)]%Z.
Proof. apply ring_west_edge. lia. Defined.
