(* ===== verification/Volatility.v ===== *)
(** * The interannual climatic volatility script (source lines 16-93)

    [av_formula_generator] and [sd_formula_generator] build Raster
    Calculator expressions over the bands ["<prefix><n>"] of a NetCDF file,
    one band per month, for the [num_years] occurrences of one month;
    [sd_raster_generator] runs the calculator twice (mean, then standard
    deviation against the mean raster) and adds both rasters to the
    project.  Line 33 iterates over [layer_number_list[0]], an [int]: the
    model keeps this, through a small type [PyVal] of the Python values
    involved, so [av_formula_generator] raises [TypeError] (or [IndexError]
    when the list is empty) on every call, and so do the two functions that
    call it, before any raster is computed.  The formula texts themselves
    are proved to quote exactly the expected band names, through a scanner
    of double-quoted names. *)

From stdpp Require Import base list strings.
From Stdlib Require Import Ascii String ZArith.
From S2P Require Import Prelude PyBuiltins Qgis.

Local Open Scope py_scope.

(** ** Python values met by the comprehensions *)

#[warnings="-register-all"]
Inductive PyVal : Type :=
| PyInt (z : Z)
| PyList (vs : list PyVal).

(** [str(v)]. *)
Fixpoint py_str_val (v : PyVal) : string :=
  match v with
  | PyInt z => py_str_int z
  | PyList vs => "[" +:+ py_join ", " (map py_str_val vs) +:+ "]"
  end.

(** [v[i]], with Python's negative indices. *)
Definition py_getitem {S} (v : PyVal) (i : Z) : PyM S PyVal :=
  match v with
  | PyList vs =>
      let j := if decide (i < 0)%Z then (i + Z.of_nat (List.length vs))%Z else i in
      match (if decide (0 <= j)%Z then vs !! Z.to_nat j else None) with
      | Some x => py_ret x
      | None => py_raise (IndexError "list index out of range")
      end
  | PyInt _ => py_raise (TypeError "'int' object is not subscriptable")
  end.

Lemma py_getitem_0 {S} (vs : list PyVal) (s : S) :
  py_getitem (PyList vs) 0 s =
  match vs with
  | [] => (Exc (IndexError "list index out of range"), s)
  | x :: _ => (Ok x, s)
  end.
Proof. by destruct vs. Qed.

(** [iter(v)] as a [for] clause needs it. *)
Definition py_iter {S} (v : PyVal) : PyM S (list PyVal) :=
  match v with
  | PyList vs => py_ret vs
  | PyInt _ => py_raise (TypeError "'int' object is not iterable")
  end.

(** ** The formulas *)

(** [str(1)+'/{}*'.format(num_years)]. *)
Definition one_over (num_years : Z) : string :=
  py_str_int 1 +:+ "/" +:+ py_str_int num_years +:+ "*".

(** Lines 33-34 after the iteration: the quoted band names joined by
    [" + "], scaled by [1/num_years]. *)
Definition av_formula_text (l_prefix : string) (num_years : Z) (xs : list PyVal) : string :=
  let av_formula := map (fun i => dq +:+ l_prefix +:+ py_str_val i +:+ dq) xs in
  one_over num_years +:+ "(" +:+ py_join " + " av_formula +:+ ")".

(** [list(range(month, month + num_years*12, 12))] (lines 32 and 48). *)
Definition layer_number_list {S} (month num_years : Z) : PyM S (list Z) :=
  py_range month (month + num_years * 12) 12.

(** Lines 26-35, as written: the comprehension iterates over the first
    layer number. *)
Definition av_formula_generator {S} (month : Z) (l_prefix : string) (num_years : Z)
    : PyM S string :=
  lnl <- layer_number_list month num_years ;;
  first <- py_getitem (PyList (map PyInt lnl)) 0 ;;
  xs <- py_iter first ;;
  py_ret (av_formula_text l_prefix num_years xs).

(** Lines 49-50 after the iteration: the squared deviations of each band
    from the mean layer. *)
Definition sd_formula_text (l_prefix : string) (num_years : Z) (av_layer_name : string)
    (xs : list PyVal) : string :=
  let sd_formula :=
    map (fun i => "(" +:+ dq +:+ l_prefix +:+ py_str_val i +:+ dq +:+ " - " +:+ dq +:+
                  av_layer_name +:+ dq +:+ ")^2") xs in
  "sqrt(" +:+ one_over num_years +:+ "(" +:+ py_join " + " sd_formula +:+ "))".

(** Lines 37-51. *)
Definition sd_formula_generator {S} (month : Z) (l_prefix : string) (num_years : Z)
    (av_layer_name : string) : PyM S string :=
  av_formula <- av_formula_generator month l_prefix num_years ;;
  lnl <- layer_number_list month num_years ;;
  xs <- py_iter (PyList (map PyInt lnl)) ;;
  py_ret (sd_formula_text l_prefix num_years av_layer_name xs).

(** Lines 53-91. *)
Definition sd_raster_generator (month : Z) (l_prefix : string) (num_years : Z)
    (input_layer : list string) (output_path raster_nameroot : string) : PyM World unit :=
  av_formula <- av_formula_generator month l_prefix num_years ;;
  av_raster <- rastercalculator av_formula input_layer
                 (os_path_join output_path ("av_" +:+ raster_nameroot +:+ py_str_int month +:+ ".tiff")) ;;
  addMapLayer (RasterLayer av_raster "av_templayer") ;;
  sd_formula <- sd_formula_generator month l_prefix num_years ("av_templayer" +:+ "@1") ;;
  sd_raster <- rastercalculator sd_formula (input_layer ++ ["av_templayer"])
                 (os_path_join output_path ("sd_" +:+ raster_nameroot +:+ py_str_int month +:+ ".tiff")) ;;
  addMapLayer (RasterLayer sd_raster ("sd_templayer_mth" +:+ py_str_int month)).

(** Lines 18-24: the module-level settings, given the layer name the
    console session is expected to define. *)
Definition l_prefix_prec (nc_layer_name : string) : string :=
  nc_layer_name +:+ " — pre@".

Definition nc_input_path : string := "cru_ts4.07.1961.1970.pre.dat".

Definition nc_layer_input_pathname (nc_layer_name : string) : string :=
  "NETCDF:" +:+ os_path_join nc_input_path (l_prefix_prec nc_layer_name) +:+ ".nc" +:+ dq +:+ ":pre".

Definition output_path : string := "".
Definition raster_for_calculation : string := "prec".
Definition raster_nameroot : string := raster_for_calculation.

(** Line 93: [sd_raster_generator(month = 5)] with the defaults of lines
    53-58. *)
Definition volatility_script (nc_layer_name : string) : PyM World unit :=
  sd_raster_generator 5 (l_prefix_prec nc_layer_name) 10
    [nc_layer_input_pathname nc_layer_name] output_path raster_nameroot.

(** ** The layer numbers *)

Lemma py_range_len_months (month num_years : Z) :
  Z.to_nat (py_range_len month (month + num_years * 12) 12) = Z.to_nat num_years.
Proof.
  unfold py_range_len. rewrite decide_True by lia.
  destruct (Z.lt_ge_cases 0 num_years).
  - rewrite decide_True by lia.
    replace (month + num_years * 12 - month - 1)%Z with (11 + (num_years - 1) * 12)%Z by lia.
    rewrite Z_div_plus_full by lia. change (11 / 12)%Z with 0%Z. lia.
  - rewrite decide_False by lia. lia.
Qed.

Lemma layer_number_list_run {S} (month num_years : Z) (s : S) :
  layer_number_list month num_years s =
  (Ok (map (fun k => month + Z.of_nat k * 12)%Z (seq 0 (Z.to_nat num_years))), s).
Proof.
  unfold layer_number_list, py_range. rewrite decide_False by lia.
  unfold py_range_list. by rewrite py_range_len_months.
Qed.

(** C16: [list(range(month, month + num_years*12, 12))] is the list of the
    [num_years] layer numbers [month + 12 k], [k < num_years] (empty when
    [num_years <= 0]); computing it changes nothing. *)
Theorem layer_number_list_spec {S} (month num_years : Z) (s : S) :
  layer_number_list month num_years s =
  (Ok (map (fun k => month + Z.of_nat k * 12)%Z (seq 0 (Z.to_nat num_years))), s).
Proof. apply layer_number_list_run. Qed.

(** ** Every call raises *)

Definition av_formula_exc (num_years : Z) : PyExc :=
  if decide (0 < num_years)%Z then TypeError "'int' object is not iterable"
  else IndexError "list index out of range".

Lemma av_formula_generator_run {S} (month : Z) (l_prefix : string) (num_years : Z) (s : S) :
  av_formula_generator month l_prefix num_years s = (Exc (av_formula_exc num_years), s).
Proof.
  unfold av_formula_generator. rewrite py_bind_run, layer_number_list_run.
  cbv beta iota. rewrite py_bind_run, py_getitem_0. unfold av_formula_exc.
  destruct (Z.to_nat num_years) as [|n] eqn:E; cbn.
  - rewrite decide_False by lia. done.
  - rewrite decide_True by lia. done.
Qed.

(** C13: as written (line 33 iterates over [layer_number_list[0]], an int),
    [av_formula_generator] raises on every call, [TypeError] when there is
    at least one year and [IndexError] otherwise, and changes no state. *)
Theorem av_formula_generator_raises {S} (month : Z) (l_prefix : string) (num_years : Z) (s : S) :
  av_formula_generator month l_prefix num_years s = (Exc (av_formula_exc num_years), s).
Proof. apply av_formula_generator_run. Qed.

(** C14: [sd_formula_generator] calls [av_formula_generator] first and so
    raises the same exception on every call. *)
Theorem sd_formula_generator_raises {S} (month : Z) (l_prefix : string) (num_years : Z)
    (av_layer_name : string) (s : S) :
  sd_formula_generator month l_prefix num_years av_layer_name s = (Exc (av_formula_exc num_years), s).
Proof.
  unfold sd_formula_generator. rewrite py_bind_run, av_formula_generator_run. done.
Qed.

(** C15: [sd_raster_generator] raises before its first processing run: no
    raster is computed and no layer is added. *)
Theorem sd_raster_generator_raises (month : Z) (l_prefix : string) (num_years : Z)
    (input_layer : list string) (output_path raster_nameroot : string) (w : World) :
  sd_raster_generator month l_prefix num_years input_layer output_path raster_nameroot w =
  (Exc (av_formula_exc num_years), w).
Proof.
  unfold sd_raster_generator. rewrite py_bind_run, av_formula_generator_run. done.
Qed.

(** The script's last line therefore stops with a [TypeError]. *)
Lemma volatility_script_raises (nc_layer_name : string) (w : World) :
  volatility_script nc_layer_name w = (Exc (TypeError "'int' object is not iterable"), w).
Proof.
  unfold volatility_script, sd_raster_generator. by rewrite py_bind_run, av_formula_generator_run.
Qed.

(** ** The band names a formula refers to *)

(** The double-quoted names of a Raster Calculator expression, in order:
    the calculator's syntax for a layer band reference. *)
Fixpoint qscan (acc : option (list ascii)) (s : string) : list string :=
  match s with
  | EmptyString => []
  | String c s' =>
      if decide (c = "034"%char) then
        match acc with
        | None => qscan (Some []) s'
        | Some a => string_of_list_ascii (rev a) :: qscan None s'
        end
      else
        match acc with
        | None => qscan None s'
        | Some a => qscan (Some (c :: a)) s'
        end
  end.

Definition quoted_names (s : string) : list string := qscan None s.

(** The string holds no double quote. *)
Definition no_dq (s : string) : bool := str_forallb (fun c => bool_decide (c <> "034"%char)) s.

Lemma qscan_plain_out t r : no_dq t = true -> qscan None (t +:+ r) = qscan None r.
Proof.
  induction t as [|c t IH]; [done|]. rewrite str_app_cons. cbn [qscan no_dq str_forallb].
  unfold no_dq in IH. intros [Hc Ht]%andb_prop.
  apply bool_decide_eq_true in Hc. rewrite decide_False by done. by apply IH.
Qed.

Lemma qscan_plain_in a t r :
  no_dq t = true -> qscan (Some a) (t +:+ r) = qscan (Some (rev (list_ascii_of_string t) ++ a)) r.
Proof.
  revert a. induction t as [|c t IH]; intros a; [done|].
  rewrite str_app_cons. cbn [qscan no_dq str_forallb list_ascii_of_string rev].
  unfold no_dq in IH. intros [Hc Ht]%andb_prop.
  apply bool_decide_eq_true in Hc. rewrite decide_False by done.
  rewrite IH by done. by rewrite <- app_assoc.
Qed.

(** [x] contributes the names [ns], whatever follows it. *)
Definition contributes (x : string) (ns : list string) : Prop :=
  forall r, qscan None (x +:+ r) = ns ++ qscan None r.

Lemma contributes_quoted_names x ns : contributes x ns -> quoted_names x = ns.
Proof.
  intros H. unfold quoted_names. rewrite <- (str_app_nil_r x), H. apply app_nil_r.
Qed.

Lemma contributes_plain t : no_dq t = true -> contributes t [].
Proof. intros Ht r. by apply qscan_plain_out. Qed.

Lemma contributes_app a b na nb :
  contributes a na -> contributes b nb -> contributes (a +:+ b) (na ++ nb).
Proof. intros Ha Hb r. by rewrite str_app_assoc, Ha, Hb, app_assoc. Qed.

(** A quoted name made of one or two pieces, followed by more text. *)
Lemma contributes_quoted1 a r0 nr :
  no_dq a = true -> contributes r0 nr -> contributes (dq +:+ a +:+ dq +:+ r0) (a :: nr).
Proof.
  intros Ha Hr r. rewrite !str_app_assoc. unfold dq. rewrite str_app_cons. cbn [qscan].
  case_decide as Hq; [clear Hq|done]. rewrite str_app_nil_l, qscan_plain_in by done.
  rewrite str_app_cons. cbn [qscan]. case_decide as Hq; [clear Hq|done].
  rewrite str_app_nil_l, app_nil_r, rev_involutive.
  by rewrite string_of_list_ascii_of_string, Hr.
Qed.

Lemma contributes_quoted2 a b r0 nr :
  no_dq a = true -> no_dq b = true -> contributes r0 nr ->
  contributes (dq +:+ a +:+ b +:+ dq +:+ r0) ((a +:+ b) :: nr).
Proof.
  intros Ha Hb Hr. rewrite <- (str_app_assoc a b).
  apply contributes_quoted1; [|done]. unfold no_dq in *. by rewrite str_forallb_app, Ha, Hb.
Qed.

Lemma contributes_join_map {A} (f : A -> string) (g : A -> list string) sep (l : list A) :
  contributes sep [] -> (forall x, contributes (f x) (g x)) ->
  contributes (py_join sep (map f l)) (List.concat (map g l)).
Proof.
  intros Hs Hf. induction l as [|x l IH].
  - by apply contributes_plain.
  - destruct l as [|y l].
    + cbn. rewrite app_nil_r. apply Hf.
    + cbn [map]. rewrite py_join_cons. cbn [map List.concat] in *.
      apply (contributes_app _ _ (g x) ([] ++ g y ++ List.concat (map g l))); [apply Hf|].
      apply (contributes_app _ _ [] (g y ++ List.concat (map g l))); [done|apply IH].
Qed.

Lemma no_dq_py_str_int z : no_dq (py_str_int z) = true.
Proof.
  eapply str_forallb_impl; [|apply py_str_int_chars].
  intros c Hc. apply bool_decide_eq_true. intros ->. discriminate.
Qed.

Lemma no_dq_one_over n : no_dq (one_over n) = true.
Proof. unfold one_over, no_dq. by rewrite !str_forallb_app, !no_dq_py_str_int. Qed.

Lemma sd_term_contributes (l_prefix av_layer_name : string) (x : Z) :
  no_dq l_prefix = true -> no_dq av_layer_name = true ->
  contributes ("(" +:+ dq +:+ l_prefix +:+ py_str_val (PyInt x) +:+ dq +:+ " - " +:+ dq +:+
               av_layer_name +:+ dq +:+ ")^2")
              [l_prefix +:+ py_str_int x; av_layer_name].
Proof.
  intros Hp Ha. apply (contributes_app _ _ []); [by apply contributes_plain|].
  apply contributes_quoted2; [done|apply no_dq_py_str_int|].
  apply (contributes_app _ _ []); [by apply contributes_plain|].
  apply contributes_quoted1; [done|]. by apply contributes_plain.
Qed.

(** C17: the standard deviation formula refers, in order, to the band
    [l_prefix + str(n)] and then to the mean layer, for each layer number
    [n]: its quoted names are exactly these, when neither name contains a
    double quote. *)
Theorem sd_formula_text_names (l_prefix : string) (num_years : Z) (av_layer_name : string)
    (xs : list Z) :
  no_dq l_prefix = true -> no_dq av_layer_name = true ->
  quoted_names (sd_formula_text l_prefix num_years av_layer_name (map PyInt xs)) =
  List.concat (map (fun i => [l_prefix +:+ py_str_int i; av_layer_name]) xs).
Proof.
  intros Hp Ha. apply contributes_quoted_names. unfold sd_formula_text. rewrite map_map.
  set (N := List.concat _).
  apply (contributes_app _ _ [] N); [by apply contributes_plain|].
  apply (contributes_app _ _ [] N); [apply contributes_plain, no_dq_one_over|].
  apply (contributes_app _ _ [] N); [by apply contributes_plain|].
  rewrite <- (app_nil_r N). apply (contributes_app _ _ N []); [|by apply contributes_plain].
  apply contributes_join_map; [by apply contributes_plain|].
  intros x. by apply sd_term_contributes.
Qed.

Lemma sd_formula_text_names_witness :
  quoted_names (sd_formula_text "tmp — pre@" 10 "av_templayer@1" (map PyInt [5; 17]%Z)) =
  List.concat (map (fun i => ["tmp — pre@" +:+ py_str_int i; "av_templayer@1"]) [5; 17]%Z).
Proof. apply sd_formula_text_names; vm_compute; reflexivity. Defined.

Example sd_formula_text_demo :
  sd_formula_text "p@" 2 "av@1" (map PyInt [5; 17]%Z) =
  "sqrt(1/2*((" +:+ dq +:+ "p@5" +:+ dq +:+ " - " +:+ dq +:+ "av@1" +:+ dq +:+ ")^2 + (" +:+
  dq +:+ "p@17" +:+ dq +:+ " - " +:+ dq +:+ "av@1" +:+ dq +:+ ")^2))".
Proof. vm_compute. reflexivity. Qed.
