(* ===== verification/Isolation.v ===== *)
(** * The Local Isolation loop (source lines 138-234)

    The state of the script is [IsoState]: the QGIS [World], the pandas
    table [df_cntry] (one [Row] per grid point: [id], [isocode],
    [avlcpcost]), the error ledger [error_point_list]/[error_excpt_list],
    and the files written by [to_csv].  The values the script only reads are
    gathered in [Env]; four of them ([bufcoordchng_rad2dg_grid1dg],
    [selec_point_ids], [tab_output_path] and the features of the layer and
    of the shapefile) come from the console session.

    [iso_step] is one iteration of the [for] loop of lines 189-232,
    [iso_loop] the loop, [local_isolation] the script from line 174 on,
    given the features of the grid layer, and [isolation_script] the
    script from line 173, which first looks the grid layer up by name
    ([load_grid_layer]).
    [iso_step_spec] is the same iteration as a pure function of the state;
    [iso_step_refines] shows the monadic code computes it, and every
    theorem on the loop is proved from it. *)

From stdpp Require Import base list strings.
From Stdlib Require Import Ascii String ZArith QArith.
From S2P Require Import Prelude PyBuiltins Qgis Neighbors.

Local Open Scope py_scope.

(** ** Data *)

(** A row of [df_cntry]; [None] in [row_avlcpcost] is NaN. *)
Record Row := mkRow { row_id : Z; row_isocode : string; row_avlcpcost : option Q }.

(** What the script reads and never changes. *)
Record Env := mkEnv {
  grid_layer : list GridFeature;          (** features of layer [grid1dg_ctrd_cntry], line 173 *)
  grid1dg_ctrds_cntry_file : string;      (** the shapefile path, line 149 *)
  grid_file : list GridFeature;           (** the features of that shapefile *)
  bufcoordchng_rad2dg_grid1dg : list Z;   (** the id offsets, line 158 *)
  selec_point_ids : list Z;               (** the points looped over, line 189 *)
  costsurf_file : string;                 (** the cost raster, line 153 *)
  tab_output_path : string                (** the output folder, line 234 *)
}.

Record IsoState := mkIso {
  iso_world : World;
  df_cntry : list Row;
  error_point_list : list Z;
  error_excpt_list : list PyExc;
  csv_written : list (string * list Row)
}.

Definition lcpvar_name : string := "avlcpcost".
Definition costcol : string := "total cost".

(** ** State updates *)

Definition set_world (st : IsoState) (w : World) : IsoState :=
  mkIso w (df_cntry st) (error_point_list st) (error_excpt_list st) (csv_written st).

Definition set_df (st : IsoState) (df : list Row) : IsoState :=
  mkIso (iso_world st) df (error_point_list st) (error_excpt_list st) (csv_written st).

(** Run a QGIS action on the world component of the state. *)
Definition liftW {A} (m : PyM World A) : PyM IsoState A :=
  fun st => let '(r, w') := m (iso_world st) in (r, set_world st w').

(** ** The table *)

(** Lines 174-185: the table of the layer's features with columns [id] and
    [isocode], and the column [avlcpcost] set to NaN. *)
Definition load_df_cntry (lyr : list GridFeature) : list Row :=
  map (fun f => mkRow (gf_id f) (gf_isocode f) None) lyr.

(** Line 178: the distinct country codes (computed, not used further). *)
Definition selec_isos (lyr : list GridFeature) : list string :=
  py_unique (map gf_isocode lyr).

(** Line 224: [df_cntry.loc[df_cntry['id'] == point_id, lcpvar_name] = v]
    sets the value in every row with that id, and does nothing when no row
    has it. *)
Definition set_avlcpcost (df : list Row) (point_id : Z) (v : option Q) : list Row :=
  map (fun r => if decide (row_id r = point_id) then mkRow (row_id r) (row_isocode r) v else r) df.

(** ** One iteration *)

(** Lines 221-222: the [total cost] column of the path layer. *)
Definition lcp_costs {S} (feats : list LcpFeature) : PyM S (list Q) :=
  py_mapM (fun f => feature_attr f costcol) feats.

(** The same column as a pure computation. *)
Fixpoint attr_costs (feats : list LcpFeature) : res (list Q) :=
  match feats with
  | [] => Ok []
  | f :: fs =>
      match lookup_attr f costcol with
      | Ok c => match attr_costs fs with Ok cs => Ok (c :: cs) | Exc e => Exc e end
      | Exc e => Exc e
      end
  end.

(** Lines 230-232: the [except] branch. *)
Definition record_error (point_id : Z) (exc : PyExc) : PyM IsoState unit :=
  py_modify (fun st => mkIso (iso_world st) (df_cntry st)
                             (error_point_list st ++ [point_id])
                             (error_excpt_list st ++ [exc]) (csv_written st)).

(** Lines 209-229: the body of the [try]. *)
Definition lcp_block (env : Env) (solver : LcpSolver) (point_id : Z)
    (lcp_start lcp_dests : list GridFeature) : PyM IsoState unit :=
  lcp_calc_result <- liftW (least_cost_path solver (costsurf_file env) lcp_start lcp_dests) ;;
  liftW (addMapLayer (MemoryLcpLayer lcp_calc_result)) ;;
  costs <- lcp_costs lcp_calc_result ;;
  let av_lcp_cal := np_mean costs in
  py_modify (fun st => set_df st (set_avlcpcost (df_cntry st) point_id av_lcp_cal)) ;;
  (* line 226, [del lcp_dests, lcp_start, lcp_calc_result], only unbinds
     Python names: the layers stay in the project *)
  liftW (time_sleep 2).

(** Lines 191-232: one iteration of the loop for [point_id]. *)
Definition iso_step (env : Env) (solver : LcpSolver) (point_id : Z) : PyM IsoState unit :=
  let expr_startpoint := pointexpr_generator point_id in
  lcp_start <- liftW (extractbyexpression (grid1dg_ctrds_cntry_file env) (grid_file env)
                        expr_startpoint) ;;
  liftW (addMapLayer (MemoryVectorLayer lcp_start)) ;;
  let expr_bufpoints :=
    expr_extrbyattr (bufpoint_id_generator point_id (bufcoordchng_rad2dg_grid1dg env)) in
  lcp_dests <- liftW (extractbyexpression (grid1dg_ctrds_cntry_file env) (grid_file env)
                        expr_bufpoints) ;;
  liftW (addMapLayer (MemoryVectorLayer lcp_dests)) ;;
  try_except (lcp_block env solver point_id lcp_start lcp_dests)
             (fun exc => record_error point_id exc).

(** Lines 189-232: the loop. *)
Definition iso_loop (env : Env) (solver : LcpSolver) : PyM IsoState unit :=
  py_for (iso_step env solver) (selec_point_ids env).

(** Line 234: [df_cntry.to_csv(...)], recorded as the rows written. *)
Definition to_csv (path : string) : PyM IsoState unit :=
  py_modify (fun st => mkIso (iso_world st) (df_cntry st) (error_point_list st)
                             (error_excpt_list st) (csv_written st ++ [(path, df_cntry st)])).

(** The initial state of lines 174-188 in a QGIS world [w]. *)
Definition iso_init (env : Env) (w : World) : IsoState :=
  mkIso w (load_df_cntry (grid_layer env)) [] [] [].

(** The script from line 174: build the table, run the loop, write the
    table. *)
Definition local_isolation (env : Env) (solver : LcpSolver) (w : World) : res unit * IsoState :=
  (iso_loop env solver ;;
   to_csv (os_path_join (tab_output_path env) ("locisol" +:+ "_hmi" +:+ ".csv")))
    (iso_init env w).

(** Lines 173 and 175: [QgsProject.instance().mapLayersByName(
    'grid1dg_ctrd_cntry')[0]] and its features. *)
Definition load_grid_layer : PyM World (list GridFeature) :=
  lyrs <- mapLayersByName "grid1dg_ctrd_cntry" ;;
  match lyrs with
  | lyr :: _ => py_lift_res (layer_features lyr)
  | [] => py_raise (IndexError "list index out of range")
  end.

Definition set_grid_layer (env : Env) (lyr : list GridFeature) : Env :=
  mkEnv lyr (grid1dg_ctrds_cntry_file env) (grid_file env) (bufcoordchng_rad2dg_grid1dg env)
        (selec_point_ids env) (costsurf_file env) (tab_output_path env).

(** The script from line 173: the grid layer is looked up in the project,
    then [local_isolation] runs on its features.  When the lookup raises,
    no table exists yet. *)
Definition isolation_script (env : Env) (solver : LcpSolver) (w : World) : res unit * IsoState :=
  match load_grid_layer w with
  | (Ok lyr, w') => local_isolation (set_grid_layer env lyr) solver w'
  | (Exc e, w') => (Exc e, mkIso w' [] [] [] [])
  end.

(** ** The iteration as a pure function of the state *)

Section StepSpec.
Context (env : Env) (solver : LcpSolver).

Definition start_feats (p : Z) : list GridFeature :=
  filter (fun f => gf_id f = p) (grid_file env).

Definition dest_feats (p : Z) : list GridFeature :=
  filter (fun f => (gf_id f - p)%Z ∈ bufcoordchng_rad2dg_grid1dg env) (grid_file env).

(** The solver's answer for the point. *)
Definition lcp_outcome (p : Z) : res (list LcpFeature) :=
  solver (costsurf_file env) (start_feats p) (dest_feats p).

(** The outcome of the [try] block: the mean cost, or the exception. *)
Definition point_result (p : Z) : res (option Q) :=
  match lcp_outcome p with
  | Ok fs => match attr_costs fs with Ok cs => Ok (np_mean cs) | Exc e => Exc e end
  | Exc e => Exc e
  end.

Definition step_runs (p : Z) : list ProcRun :=
  [RunExtractByExpression (grid1dg_ctrds_cntry_file env) (pointexpr_generator p);
   RunExtractByExpression (grid1dg_ctrds_cntry_file env)
     (expr_extrbyattr (bufpoint_id_generator p (bufcoordchng_rad2dg_grid1dg env)));
   RunLeastCostPath (costsurf_file env) (map gf_id (start_feats p)) (map gf_id (dest_feats p))].

Definition step_layers (p : Z) : list MapLayer :=
  [MemoryVectorLayer (start_feats p); MemoryVectorLayer (dest_feats p)] ++
  match lcp_outcome p with Ok fs => [MemoryLcpLayer fs] | Exc _ => [] end.

Definition step_sleep (p : Z) : Z :=
  match point_result p with Ok _ => 2 | Exc _ => 0 end.

Definition iso_step_spec (p : Z) (st : IsoState) : IsoState :=
  let w := iso_world st in
  let w' := mkWorld (w_layers w ++ step_layers p) (w_runs w ++ step_runs p)
                    (w_clock w + step_sleep p) in
  match point_result p with
  | Ok v => mkIso w' (set_avlcpcost (df_cntry st) p v) (error_point_list st)
                  (error_excpt_list st) (csv_written st)
  | Exc e => mkIso w' (df_cntry st) (error_point_list st ++ [p])
                   (error_excpt_list st ++ [e]) (csv_written st)
  end.
End StepSpec.

(** ** From the code to the pure transition *)

Lemma lcp_costs_run {S} feats (s : S) : lcp_costs feats s = (attr_costs feats, s).
Proof.
  induction feats as [|f fs IH]; [done|].
  unfold lcp_costs in *. cbn [py_mapM]. rewrite py_bind_run.
  unfold feature_attr, py_lift_res in *. cbn [attr_costs].
  destruct (lookup_attr f costcol); [|done].
  cbv beta. rewrite py_bind_run, IH. by destruct (attr_costs fs).
Qed.

Lemma lcp_block_run env solver p s d st :
  lcp_block env solver p s d st =
  let w1 := world_log (iso_world st) (RunLeastCostPath (costsurf_file env) (map gf_id s) (map gf_id d)) in
  match solver (costsurf_file env) s d with
  | Ok fs =>
      let w2 := mkWorld (w_layers w1 ++ [MemoryLcpLayer fs]) (w_runs w1) (w_clock w1) in
      match attr_costs fs with
      | Ok cs =>
          (Ok tt, mkIso (mkWorld (w_layers w2) (w_runs w2) (w_clock w2 + 2))
                    (set_avlcpcost (df_cntry st) p (np_mean cs))
                    (error_point_list st) (error_excpt_list st) (csv_written st))
      | Exc e => (Exc e, set_world st w2)
      end
  | Exc e => (Exc e, set_world st w1)
  end.
Proof.
  unfold lcp_block, liftW, least_cost_path, log_run, addMapLayer, time_sleep,
    py_modify, py_lift_res, py_bind, py_ret.
  destruct (solver (costsurf_file env) s d) as [fs|e]; [|done].
  rewrite lcp_costs_run. by destruct (attr_costs fs).
Qed.

Lemma iso_step_run env solver p st :
  bufcoordchng_rad2dg_grid1dg env <> [] ->
  iso_step env solver p st = (Ok tt, iso_step_spec env solver p st).
Proof.
  intros Hne. unfold iso_step, liftW.
  rewrite py_bind_run, extract_start. cbv beta iota zeta.
  rewrite py_bind_run. unfold addMapLayer, py_modify at 1. cbv beta iota zeta.
  rewrite py_bind_run, extract_bufpoints_run by done. cbv beta iota zeta.
  rewrite py_bind_run. unfold addMapLayer, py_modify at 1. cbv beta iota zeta.
  rewrite try_except_run, lcp_block_run.
  unfold iso_step_spec, step_layers, step_runs, step_sleep, point_result, lcp_outcome,
    start_feats, dest_feats, record_error, py_modify, set_world, world_log.
  destruct (solver _ _ _) as [fs|e]; [destruct (attr_costs fs) as [cs|e]|];
    cbn; rewrite <- ?app_assoc; try rewrite Z.add_0_r.
  all: reflexivity.
Qed.

(** C12: one iteration of the loop, for a non-empty offset list, never
    raises and computes [iso_step_spec]: the monadic code of lines 191-232
    refines the pure transition. *)
Theorem iso_step_refines env solver p st :
  bufcoordchng_rad2dg_grid1dg env <> [] ->
  iso_step env solver p st = (Ok tt, iso_step_spec env solver p st).
Proof. apply iso_step_run. Qed.

(** ** The loop as a fold of the pure transition *)

Section Loop.
Context (env : Env) (solver : LcpSolver).

Definition iso_loop_spec (ps : list Z) (st : IsoState) : IsoState :=
  fold_left (fun st p => iso_step_spec env solver p st) ps st.

Lemma py_for_iso_step ps st :
  bufcoordchng_rad2dg_grid1dg env <> [] ->
  py_for (iso_step env solver) ps st = (Ok tt, iso_loop_spec ps st).
Proof.
  intros Hne. revert st. induction ps as [|p ps IH]; intros st; [done|].
  cbn [py_for]. rewrite py_bind_run, iso_step_run by done. apply IH.
Qed.

(** The value a row ends with: the result of its point when the point is
    looped over and its [try] block succeeded, its old value otherwise. *)
Definition row_final (ps : list Z) (r : Row) : Row :=
  if decide (row_id r ∈ ps) then
    match point_result env solver (row_id r) with
    | Ok v => mkRow (row_id r) (row_isocode r) v
    | Exc _ => r
    end
  else r.

Lemma row_final_id ps r : row_id (row_final ps r) = row_id r.
Proof.
  unfold row_final. case_decide; [|done].
  by destruct (point_result env solver (row_id r)).
Qed.

Lemma row_final_cons p ps r :
  row_final (p :: ps) r =
  row_final ps (if decide (row_id r = p) then
                  match point_result env solver p with
                  | Ok v => mkRow (row_id r) (row_isocode r) v
                  | Exc _ => r
                  end
                else r).
Proof.
  unfold row_final. destruct (decide (row_id r = p)) as [<-|Hp].
  - rewrite decide_True by (rewrite elem_of_cons; tauto).
    destruct (point_result env solver (row_id r)) eqn:E; cbn.
    + case_decide; [by rewrite E|done].
    + case_decide; [by rewrite E|done].
  - destruct (decide (row_id r ∈ ps)) as [Hin|Hin].
    + rewrite decide_True by (rewrite elem_of_cons; tauto). done.
    + rewrite decide_False by (rewrite elem_of_cons; tauto). done.
Qed.

Lemma iso_loop_spec_df ps st :
  df_cntry (iso_loop_spec ps st) = map (row_final ps) (df_cntry st).
Proof.
  revert st. induction ps as [|p ps IH]; intros st.
  - cbn. symmetry. transitivity (map id (df_cntry st)); [|apply map_id].
    apply map_ext. intros r. unfold row_final. case_decide as Hin; [|done].
    by apply not_elem_of_nil in Hin.
  - cbn [iso_loop_spec fold_left]. rewrite IH. unfold iso_step_spec.
    destruct (point_result env solver p) eqn:E; cbn; unfold set_avlcpcost;
      rewrite ?map_map; apply map_ext; intros r; rewrite row_final_cons, E;
      by case_decide.
Qed.

Lemma iso_loop_spec_errors ps st :
  error_point_list (iso_loop_spec ps st) =
  error_point_list st ++ filter (fun p => is_ok (point_result env solver p) = false) ps.
Proof.
  unfold iso_loop_spec.
  rewrite (fold_left_proj_app _ _ (fun p => if is_ok (point_result env solver p) then [] else [p])).
  - f_equal. induction ps as [|p ps IH]; [done|]. simpl.
    rewrite filter_cons, IH.
    destruct (point_result env solver p); cbn; case_decide; done.
  - intros st' p. unfold iso_step_spec.
    destruct (point_result env solver p); cbn; by rewrite ?app_nil_r.
Qed.

Lemma iso_loop_spec_excs ps st :
  error_excpt_list (iso_loop_spec ps st) =
  error_excpt_list st ++
    omap (fun p => match point_result env solver p with Exc e => Some e | Ok _ => None end) ps.
Proof.
  unfold iso_loop_spec.
  rewrite (fold_left_proj_app _ _ (fun p => match point_result env solver p with
                                              | Exc e => [e] | Ok _ => [] end)).
  - f_equal. induction ps as [|p ps IH]; [done|]. simpl.
    rewrite IH. by destruct (point_result env solver p).
  - intros st' p. unfold iso_step_spec.
    destruct (point_result env solver p); cbn; by rewrite ?app_nil_r.
Qed.

Lemma iso_loop_spec_layers ps st :
  w_layers (iso_world (iso_loop_spec ps st)) =
  w_layers (iso_world st) ++ List.concat (map (step_layers env solver) ps).
Proof.
  apply (fold_left_proj_app _ (fun st => w_layers (iso_world st))).
  intros st' p. unfold iso_step_spec. by destruct (point_result env solver p).
Qed.

Lemma iso_loop_spec_runs ps st :
  w_runs (iso_world (iso_loop_spec ps st)) =
  w_runs (iso_world st) ++ List.concat (map (step_runs env) ps).
Proof.
  apply (fold_left_proj_app _ (fun st => w_runs (iso_world st))).
  intros st' p. unfold iso_step_spec. by destruct (point_result env solver p).
Qed.

Lemma iso_loop_spec_clock ps st :
  w_clock (iso_world (iso_loop_spec ps st)) =
  (w_clock (iso_world st) + fold_right (fun p acc => step_sleep env solver p + acc) 0 ps)%Z.
Proof.
  apply (fold_left_proj_add _ (fun st => w_clock (iso_world st))).
  intros st' p. unfold iso_step_spec. by destruct (point_result env solver p).
Qed.

Lemma iso_loop_spec_csv ps st :
  csv_written (iso_loop_spec ps st) = csv_written st.
Proof.
  unfold iso_loop_spec. revert st. induction ps as [|p ps IH]; intros st; [done|].
  cbn. rewrite IH. unfold iso_step_spec. by destruct (point_result env solver p).
Qed.
End Loop.

(** ** Theorems on the loop and the script *)

Section Theorems.
Context (env : Env) (solver : LcpSolver).

(** With no offsets the end-point expression is [id IN ()]: the second
    extraction raises, after the start layer was added. *)
Lemma iso_step_no_offsets p st :
  bufcoordchng_rad2dg_grid1dg env = [] ->
  iso_step env solver p st =
  (Exc (QgsProcessingException "Evaluation error in expression"),
   set_world st
     (mkWorld (w_layers (iso_world st) ++ [MemoryVectorLayer (start_feats env p)])
              (w_runs (iso_world st) ++
                 [RunExtractByExpression (grid1dg_ctrds_cntry_file env) (pointexpr_generator p);
                  RunExtractByExpression (grid1dg_ctrds_cntry_file env) "id IN ()"])
              (w_clock (iso_world st)))).
Proof.
  intros He. unfold iso_step, liftW.
  rewrite py_bind_run, extract_start. cbv beta iota zeta.
  rewrite py_bind_run. unfold addMapLayer, py_modify at 1. cbv beta iota zeta.
  rewrite py_bind_run, He, extract_bufpoints_empty. cbv beta iota zeta.
  unfold set_world, world_log. cbn. by rewrite <- app_assoc.
Qed.

Lemma iso_loop_no_offsets st :
  bufcoordchng_rad2dg_grid1dg env = [] ->
  selec_point_ids env <> [] ->
  exists w', iso_loop env solver st =
    (Exc (QgsProcessingException "Evaluation error in expression"), set_world st w').
Proof.
  intros He Hps. unfold iso_loop. destruct (selec_point_ids env) as [|p ps]; [done|].
  cbn [py_for]. rewrite py_bind_run, iso_step_no_offsets by done. eauto.
Qed.

Lemma iso_loop_run st :
  bufcoordchng_rad2dg_grid1dg env <> [] ->
  iso_loop env solver st = (Ok tt, iso_loop_spec env solver (selec_point_ids env) st).
Proof. intros Hne. by apply py_for_iso_step. Qed.

(** The final state of the script: the loop's state with the table
    written. *)
Lemma local_isolation_run (w : World) :
  bufcoordchng_rad2dg_grid1dg env <> [] ->
  local_isolation env solver w =
  (Ok tt,
   let S := iso_loop_spec env solver (selec_point_ids env) (iso_init env w) in
   mkIso (iso_world S) (df_cntry S) (error_point_list S) (error_excpt_list S)
         [(os_path_join (tab_output_path env) "locisol_hmi.csv", df_cntry S)]).
Proof.
  intros Hne. unfold local_isolation. rewrite py_bind_run, iso_loop_run by done.
  unfold to_csv, py_modify. by rewrite iso_loop_spec_csv.
Qed.

(** C1: with a non-empty offset list the script runs to the end and writes
    exactly one table: one row per feature of the grid layer, in layer
    order, with the feature's id and isocode, and as [avlcpcost] the
    outcome of its point's least-cost-path block when the point is looped
    over and the block succeeded, NaN otherwise. *)
Theorem local_isolation_table (w : World) :
  bufcoordchng_rad2dg_grid1dg env <> [] ->
  fst (local_isolation env solver w) = Ok tt /\
  csv_written (snd (local_isolation env solver w)) =
    [(os_path_join (tab_output_path env) "locisol_hmi.csv",
      map (fun f => row_final env solver (selec_point_ids env)
                      (mkRow (gf_id f) (gf_isocode f) None))
          (grid_layer env))].
Proof.
  intros Hne. rewrite local_isolation_run by done. cbn [fst snd csv_written].
  split; [done|]. rewrite iso_loop_spec_df. cbn. unfold load_df_cntry.
  by rewrite map_map.
Qed.

(** C7: the table keeps one row per grid point: the loop changes neither
    the number of rows nor any row's id or isocode. *)
Theorem iso_loop_table_shape (st : IsoState) :
  map (fun r => (row_id r, row_isocode r)) (df_cntry (snd (iso_loop env solver st))) =
  map (fun r => (row_id r, row_isocode r)) (df_cntry st).
Proof.
  destruct (decide (bufcoordchng_rad2dg_grid1dg env = [])) as [He|Hne].
  - destruct (decide (selec_point_ids env = [])) as [Hps|Hps].
    + unfold iso_loop. by rewrite Hps.
    + by destruct (iso_loop_no_offsets st He Hps) as [w' ->].
  - rewrite iso_loop_run by done. cbn [snd]. rewrite iso_loop_spec_df, map_map.
    apply map_ext. intros r. unfold row_final.
    case_decide; [|done]. by destruct (point_result env solver (row_id r)).
Qed.
Lemma iso_loop_ledger (st : IsoState) :
  bufcoordchng_rad2dg_grid1dg env <> [] ->
  error_point_list (snd (iso_loop env solver st)) =
    error_point_list st ++
    filter (fun p => is_ok (point_result env solver p) = false) (selec_point_ids env) /\
  error_excpt_list (snd (iso_loop env solver st)) =
    error_excpt_list st ++
    omap (fun p => match point_result env solver p with Exc e => Some e | Ok _ => None end)
         (selec_point_ids env).
Proof.
  intros Hne. rewrite iso_loop_run by done. cbn [snd].
  by rewrite iso_loop_spec_errors, iso_loop_spec_excs.
Qed.

(** C3: the error ledger lists exactly the looped-over points whose
    least-cost-path block raised, in loop order, each with its exception;
    no other iteration touches it. *)
Theorem iso_loop_error_ledger (st : IsoState) :
  bufcoordchng_rad2dg_grid1dg env <> [] ->
  error_point_list (snd (iso_loop env solver st)) =
    error_point_list st ++
    filter (fun p => is_ok (point_result env solver p) = false) (selec_point_ids env) /\
  error_excpt_list (snd (iso_loop env solver st)) =
    error_excpt_list st ++
    omap (fun p => match point_result env solver p with Exc e => Some e | Ok _ => None end)
         (selec_point_ids env).
Proof. apply iso_loop_ledger. Qed.

Lemma iso_loop_row_value (st : IsoState) (p : Z) (fs : list LcpFeature) (cs : list Q) :
  bufcoordchng_rad2dg_grid1dg env <> [] ->
  p ∈ selec_point_ids env ->
  lcp_outcome env solver p = Ok fs ->
  attr_costs fs = Ok cs ->
  forall r, r ∈ df_cntry (snd (iso_loop env solver st)) -> row_id r = p ->
  row_avlcpcost r = np_mean cs.
Proof.
  intros Hne Hp Hout Hcs r Hr Hid. rewrite iso_loop_run in Hr by done.
  cbn [snd] in Hr. rewrite iso_loop_spec_df, list_elem_of_fmap in Hr.
  destruct Hr as (r0 & -> & _). rewrite row_final_id in Hid.
  unfold row_final. rewrite decide_True by (by rewrite Hid).
  unfold point_result. by rewrite Hid, Hout, Hcs.
Qed.

(** C4: a looped-over point whose path layer has the total costs [cs] ends
    with the mean of [cs] in every row of its id. *)
Theorem iso_loop_point_value (st : IsoState) (p : Z) (fs : list LcpFeature) (cs : list Q) :
  bufcoordchng_rad2dg_grid1dg env <> [] ->
  p ∈ selec_point_ids env ->
  lcp_outcome env solver p = Ok fs ->
  attr_costs fs = Ok cs ->
  forall r, r ∈ df_cntry (snd (iso_loop env solver st)) -> row_id r = p ->
  row_avlcpcost r = np_mean cs.
Proof. apply iso_loop_row_value. Qed.
(** C6: a point whose least-cost-path layer is empty (no end point
    reachable, or no end point at all when the plugin returns an empty
    layer) gets NaN and is not entered in the error ledger: numpy's mean of
    an empty column is NaN and raises nothing. *)
Theorem iso_loop_empty_result (st : IsoState) (p : Z) :
  bufcoordchng_rad2dg_grid1dg env <> [] ->
  p ∈ selec_point_ids env ->
  lcp_outcome env solver p = Ok [] ->
  p ∉ error_point_list st ->
  (p ∉ error_point_list (snd (iso_loop env solver st))) /\
  (forall r, r ∈ df_cntry (snd (iso_loop env solver st)) -> row_id r = p ->
             row_avlcpcost r = None).
Proof.
  intros Hne Hp Hout Hst. split.
  - rewrite (proj1 (iso_loop_ledger st Hne)), elem_of_app, list_elem_of_filter.
    unfold point_result at 1. rewrite Hout. cbn. intros [|[? _]]; done.
  - by apply (iso_loop_row_value st p [] []).
Qed.

Lemma length_step_layers ps :
  List.length (List.concat (map (step_layers env solver) ps)) =
  (2 * List.length ps +
   List.length (filter (fun p => is_ok (lcp_outcome env solver p) = true) ps))%nat.
Proof.
  induction ps as [|p ps IH]; [done|]. cbn [map List.concat].
  rewrite length_app, IH, filter_cons. unfold step_layers at 1.
  destruct (lcp_outcome env solver p);
    [rewrite decide_True by done | rewrite decide_False by done]; cbn; lia.
Qed.

(** C9: no layer is ever removed from the project: every looped-over point
    adds its start and end layers, and its path layer when the plugin
    returned one. *)
Theorem iso_loop_layers (st : IsoState) :
  bufcoordchng_rad2dg_grid1dg env <> [] ->
  List.length (w_layers (iso_world (snd (iso_loop env solver st)))) =
    (List.length (w_layers (iso_world st)) + 2 * List.length (selec_point_ids env) +
     List.length (filter (fun p => is_ok (lcp_outcome env solver p) = true)
                         (selec_point_ids env)))%nat.
Proof.
  intros Hne. rewrite iso_loop_run by done. cbn [snd].
  rewrite iso_loop_spec_layers, length_app, length_step_layers. lia.
Qed.

(** C10: each looped-over point performs exactly three processing runs, in
    this order: the start-point extraction, the end-point extraction, and
    the least cost path from the first to the second. *)
Theorem iso_loop_runs (st : IsoState) :
  bufcoordchng_rad2dg_grid1dg env <> [] ->
  w_runs (iso_world (snd (iso_loop env solver st))) =
    w_runs (iso_world st) ++
    List.concat (map (fun p =>
      [RunExtractByExpression (grid1dg_ctrds_cntry_file env) (pointexpr_generator p);
       RunExtractByExpression (grid1dg_ctrds_cntry_file env)
         (expr_extrbyattr (bufpoint_id_generator p (bufcoordchng_rad2dg_grid1dg env)));
       RunLeastCostPath (costsurf_file env) (map gf_id (start_feats env p))
         (map gf_id (dest_feats env p))]) (selec_point_ids env)).
Proof.
  intros Hne. rewrite iso_loop_run by done. cbn [snd].
  by rewrite iso_loop_spec_runs.
Qed.

(** C11: the script sleeps two seconds after each point whose block
    succeeded, and never after a failed one. *)
Theorem iso_loop_clock (st : IsoState) :
  bufcoordchng_rad2dg_grid1dg env <> [] ->
  w_clock (iso_world (snd (iso_loop env solver st))) =
    (w_clock (iso_world st) +
     2 * Z.of_nat (List.length (filter (fun p => is_ok (point_result env solver p) = true)
                                  (selec_point_ids env))))%Z.
Proof.
  intros Hne. rewrite iso_loop_run by done. cbn [snd].
  rewrite iso_loop_spec_clock. f_equal.
  induction (selec_point_ids env) as [|p ps IH]; [done|].
  cbn [fold_right]. rewrite IH, filter_cons. unfold step_sleep.
  destruct (point_result env solver p);
    [rewrite decide_True by done | rewrite decide_False by done]; cbn [List.length]; lia.
Qed.

(** C8: with an empty offset list the loop does not survive its first
    point: the end-point extraction raises outside the [try], so the
    exception escapes the loop, and neither the table nor the ledger has
    been changed. *)
Theorem iso_loop_aborts_without_offsets (st : IsoState) :
  bufcoordchng_rad2dg_grid1dg env = [] ->
  selec_point_ids env <> [] ->
  fst (iso_loop env solver st) = Exc (QgsProcessingException "Evaluation error in expression") /\
  df_cntry (snd (iso_loop env solver st)) = df_cntry st /\
  error_point_list (snd (iso_loop env solver st)) = error_point_list st.
Proof.
  intros He Hps. by destruct (iso_loop_no_offsets st He Hps) as [w' ->].
Qed.
End Theorems.

Lemma filter_map_agree {A B} (P : B -> Prop) `{!forall x, Decision (P x)}
    (f g : A -> B) (l : list A) :
  (forall x, P (f x) <-> P (g x)) -> (forall x, P (f x) -> f x = g x) ->
  filter P (map f l) = filter P (map g l).
Proof.
  intros Hp Hfg. induction l as [|x l IH]; [done|]. cbn [map].
  rewrite !filter_cons, IH. case_decide as H1; case_decide as H2.
  - by rewrite Hfg.
  - by apply Hp in H1.
  - by apply Hp in H2.
  - done.
Qed.

(** C5: a change of the solver's answer at one point [q] (a failure
    injected there, say) changes no row of another point: when the two
    solvers give the same outcome at every other looped-over point, the
    rows with an id other than [q] are the same. *)
Theorem iso_loop_failure_isolation (env : Env) (solver1 solver2 : LcpSolver) (q : Z)
    (st : IsoState) :
  bufcoordchng_rad2dg_grid1dg env <> [] ->
  (forall p, p ∈ selec_point_ids env -> p <> q ->
             point_result env solver1 p = point_result env solver2 p) ->
  filter (fun r => row_id r <> q) (df_cntry (snd (iso_loop env solver1 st))) =
  filter (fun r => row_id r <> q) (df_cntry (snd (iso_loop env solver2 st))).
Proof.
  intros Hne Hagree. rewrite !iso_loop_run by done. cbn [snd].
  rewrite !iso_loop_spec_df. apply filter_map_agree.
  - intros r. by rewrite !row_final_id.
  - intros r Hr. rewrite row_final_id in Hr. unfold row_final.
    case_decide; [|done]. by rewrite Hagree.
Qed.

(** ** A concrete run: the scenario of the specification *)

(** Grid points 1-4 in a row and an isolated point 9; offsets [-1; +1]. *)
(** C25: the only load-time failure of the script: when the project has
    no layer named [grid1dg_ctrd_cntry], line 173 raises [IndexError]
    before anything else happens: no processing run, no layer added, no
    sleep, no ledger entry and no file written. *)
Theorem isolation_script_no_layer env solver (w : World) :
  (forall l, l ∈ w_layers w -> layer_name l <> Some "grid1dg_ctrd_cntry") ->
  isolation_script env solver w = (Exc (IndexError "list index out of range"), mkIso w [] [] [] []).
Proof.
  intros Hw. unfold isolation_script, load_grid_layer, mapLayersByName.
  rewrite py_bind_run, filter_none by done. done.
Qed.

(** When the project has exactly one layer with that name, a vector
    layer, the script is [local_isolation] over its features, in the same
    world. *)
Lemma isolation_script_loads env solver (w : World) (feats : list GridFeature) :
  filter (fun l => layer_name l = Some "grid1dg_ctrd_cntry") (w_layers w) =
    [VectorLayer "grid1dg_ctrd_cntry" feats] ->
  isolation_script env solver w = local_isolation (set_grid_layer env feats) solver w.
Proof.
  intros Hw. unfold isolation_script, load_grid_layer, mapLayersByName.
  rewrite py_bind_run, Hw. done.
Qed.

Definition demo_grid : list GridFeature :=
  [mkGridFeature 1 "AAA"; mkGridFeature 2 "AAA"; mkGridFeature 3 "BBB";
   mkGridFeature 4 "BBB"; mkGridFeature 9 "CCC"].

Definition demo_env : Env :=
  mkEnv demo_grid "grid1dg_ctrd_cntry.shp" demo_grid [(-1)%Z; 1%Z] [1; 2; 3; 4; 9]%Z
        "costsurf.tif" "".

Definition demo_cost (s e : Z) : Q :=
  if decide (s = 1 /\ e = 2)%Z then 3
  else if decide (s = 2 /\ e = 1)%Z then 4
  else if decide (s = 2 /\ e = 3)%Z then 6
  else if decide (s = 3 /\ e = 2)%Z then 5
  else if decide (s = 3 /\ e = 4)%Z then 7
  else 0.

(** A solver that finds no path from point 4 and one path to every end
    point from the other points. *)
Definition demo_solver : LcpSolver :=
  fun _ start ends =>
    match start with
    | [s] => if decide (gf_id s = 4%Z) then Exc (QgsProcessingException "no path")
             else Ok (map (fun e => [(costcol, demo_cost (gf_id s) (gf_id e))]) ends)
    | _ => Exc (QgsProcessingException "one start point expected")
    end.

Definition demo_state : IsoState := iso_init demo_env (mkWorld [] [] 0).

(** The run: 3 for point 1, 5 for point 2, 6 for point 3, NaN for point 4
    (ledger entry) and for the isolated point 9 (no ledger entry). *)
Example demo_run_values :
  map row_avlcpcost (df_cntry (snd (iso_loop demo_env demo_solver demo_state)))
  ≡ [Some 3; Some 5; Some 6; None; None]%Q.
Proof. vm_compute. repeat constructor; vm_compute; reflexivity. Qed.

Example demo_run_ledger :
  error_point_list (snd (iso_loop demo_env demo_solver demo_state)) = [4%Z].
Proof. vm_compute. reflexivity. Qed.

Lemma local_isolation_table_witness :
  fst (local_isolation demo_env demo_solver (mkWorld [] [] 0)) = Ok tt /\
  csv_written (snd (local_isolation demo_env demo_solver (mkWorld [] [] 0))) =
    [(os_path_join (tab_output_path demo_env) "locisol_hmi.csv",
      map (fun f => row_final demo_env demo_solver (selec_point_ids demo_env)
                      (mkRow (gf_id f) (gf_isocode f) None))
          (grid_layer demo_env))].
Proof. apply local_isolation_table. discriminate. Defined.

Lemma iso_loop_error_ledger_witness :
  error_point_list (snd (iso_loop demo_env demo_solver demo_state)) =
    error_point_list demo_state ++
    filter (fun p => is_ok (point_result demo_env demo_solver p) = false)
           (selec_point_ids demo_env) /\
  error_excpt_list (snd (iso_loop demo_env demo_solver demo_state)) =
    error_excpt_list demo_state ++
    omap (fun p => match point_result demo_env demo_solver p with
                   | Exc e => Some e | Ok _ => None end) (selec_point_ids demo_env).
Proof. apply iso_loop_error_ledger. discriminate. Defined.

Lemma iso_loop_point_value_witness :
  row_avlcpcost (List.nth 1 (df_cntry (snd (iso_loop demo_env demo_solver demo_state)))
                  (mkRow 0 "" None)) = np_mean [4; 6]%Q.
Proof.
  apply (iso_loop_point_value demo_env demo_solver demo_state 2
           [[(costcol, 4%Q)]; [(costcol, 6%Q)]] [4; 6]%Q).
  - discriminate.
  - repeat constructor.
  - vm_compute. reflexivity.
  - vm_compute. reflexivity.
  - apply list_elem_of_In, nth_In. vm_compute. lia.
  - vm_compute. reflexivity.
Defined.

Lemma iso_loop_empty_result_witness :
  (9%Z ∉ error_point_list (snd (iso_loop demo_env demo_solver demo_state))) /\
  row_avlcpcost (List.nth 4 (df_cntry (snd (iso_loop demo_env demo_solver demo_state)))
                  (mkRow 0 "" None)) = None.
Proof.
  destruct (iso_loop_empty_result demo_env demo_solver demo_state 9) as [H1 H2].
  - discriminate.
  - repeat constructor.
  - vm_compute. reflexivity.
  - vm_compute. apply not_elem_of_nil.
  - split; [exact H1|]. apply H2.
    + apply list_elem_of_In, nth_In. vm_compute. lia.
    + vm_compute. reflexivity.
Defined.

Lemma iso_loop_layers_witness :
  List.length (w_layers (iso_world (snd (iso_loop demo_env demo_solver demo_state)))) =
    (List.length (w_layers (iso_world demo_state)) + 2 * List.length (selec_point_ids demo_env) +
     List.length (filter (fun p => is_ok (lcp_outcome demo_env demo_solver p) = true)
                         (selec_point_ids demo_env)))%nat.
Proof. apply iso_loop_layers. discriminate. Defined.

Lemma iso_loop_runs_witness :
  w_runs (iso_world (snd (iso_loop demo_env demo_solver demo_state))) =
    w_runs (iso_world demo_state) ++
    List.concat (map (fun p =>
      [RunExtractByExpression (grid1dg_ctrds_cntry_file demo_env) (pointexpr_generator p);
       RunExtractByExpression (grid1dg_ctrds_cntry_file demo_env)
         (expr_extrbyattr (bufpoint_id_generator p (bufcoordchng_rad2dg_grid1dg demo_env)));
       RunLeastCostPath (costsurf_file demo_env) (map gf_id (start_feats demo_env p))
         (map gf_id (dest_feats demo_env p))]) (selec_point_ids demo_env)).
Proof. apply iso_loop_runs. discriminate. Defined.

Lemma iso_loop_clock_witness :
  w_clock (iso_world (snd (iso_loop demo_env demo_solver demo_state))) =
    (w_clock (iso_world demo_state) +
     2 * Z.of_nat (List.length (filter (fun p => is_ok (point_result demo_env demo_solver p) = true)
                                       (selec_point_ids demo_env))))%Z.
Proof. apply iso_loop_clock. discriminate. Defined.

Definition demo_env_no_offsets : Env :=
  mkEnv demo_grid "grid1dg_ctrd_cntry.shp" demo_grid [] [1; 2]%Z "costsurf.tif" "".

Lemma iso_loop_aborts_without_offsets_witness :
  fst (iso_loop demo_env_no_offsets demo_solver demo_state) =
    Exc (QgsProcessingException "Evaluation error in expression") /\
  df_cntry (snd (iso_loop demo_env_no_offsets demo_solver demo_state)) = df_cntry demo_state /\
  error_point_list (snd (iso_loop demo_env_no_offsets demo_solver demo_state)) =
    error_point_list demo_state.
Proof. apply iso_loop_aborts_without_offsets; [reflexivity | discriminate]. Defined.

(** The demo solver, made to fail at point 2 as well. *)
Definition demo_solver_fail2 : LcpSolver :=
  fun c start ends =>
    if decide (map gf_id start = [2%Z]) then Exc (QgsProcessingException "no path")
    else demo_solver c start ends.

Lemma iso_step_refines_witness :
  iso_step demo_env demo_solver 2 demo_state =
  (Ok tt, iso_step_spec demo_env demo_solver 2 demo_state).
Proof. apply iso_step_refines. discriminate. Defined.

Lemma iso_loop_failure_isolation_witness :
  filter (fun r => row_id r <> 2%Z) (df_cntry (snd (iso_loop demo_env demo_solver demo_state))) =
  filter (fun r => row_id r <> 2%Z) (df_cntry (snd (iso_loop demo_env demo_solver_fail2 demo_state))).
Proof.
  apply iso_loop_failure_isolation.
  - discriminate.
  - intros p Hp Hq. rewrite list_elem_of_In in Hp. simpl in Hp.
    destruct Hp as [<-|[<-|[<-|[<-|[<-|[]]]]]]; [vm_compute; reflexivity | lia | ..];
      vm_compute; reflexivity.
Defined.

(** The demonstration run from line 173, in a project holding the grid
    layer and a cost raster. *)
Definition demo_world : World :=
  mkWorld [RasterLayer "cost.tif" "cost"; VectorLayer "grid1dg_ctrd_cntry" demo_grid] [] 0.

Example demo_script_ledger :
  error_point_list (snd (isolation_script demo_env demo_solver demo_world)) = [4%Z].
Proof. vm_compute. reflexivity. Qed.

Lemma isolation_script_no_layer_witness :
  isolation_script demo_env demo_solver (mkWorld [RasterLayer "cost.tif" "cost"] [] 0) =
  (Exc (IndexError "list index out of range"), mkIso (mkWorld [RasterLayer "cost.tif" "cost"] [] 0) [] [] [] []).
Proof.
  apply isolation_script_no_layer. intros l ->%list_elem_of_singleton. discriminate.
Defined.
