(* ===== verification/Bounds.v ===== *)
(** * The range of the values the script writes

    numpy's mean of a non-empty column lies between any bounds of the
    column's values ([np_mean_bounds] in [PyBuiltins]).  The loop writes,
    for a looped-over point whose [try] block succeeded, the mean of the
    [total cost] column of its path layer (line 222), and NaN is written
    for every other point.  So when every cost the solver reports for a
    looped-over point lies in [[lo, hi]] (for a cost surface of
    non-negative cells, [lo = 0] and [hi] the largest least cost), every
    value of the table the script writes lies in [[lo, hi]]. *)

From stdpp Require Import base list strings.
From Stdlib Require Import Ascii String ZArith QArith.
From S2P Require Import Prelude PyBuiltins Qgis Neighbors Isolation.

(** A value of the [avlcpcost] column within [[lo, hi]]; NaN is in no
    range and is left out. *)
Definition in_range (lo hi : Q) (v : option Q) : Prop :=
  match v with Some x => (lo <= x <= hi)%Q | None => True end.

Section Bounds.
Context (env : Env) (solver : LcpSolver) (lo hi : Q).

(** The costs the solver reports for point [p] lie in [[lo, hi]]. *)
Definition costs_in_range (p : Z) : Prop :=
  forall fs cs, lcp_outcome env solver p = Ok fs -> attr_costs fs = Ok cs ->
    Forall (fun c => lo <= c <= hi)%Q cs.

Lemma point_result_in_range p v :
  costs_in_range p -> point_result env solver p = Ok v -> in_range lo hi v.
Proof.
  intros Hc. unfold point_result. destruct (lcp_outcome env solver p) as [fs|e] eqn:Ho; [|done].
  destruct (attr_costs fs) as [cs|e] eqn:Ha; [|done]. intros [= <-].
  destruct (np_mean cs) as [v|] eqn:Hm; [|done]. cbn.
  eapply np_mean_bounds; [|exact Hm]. by apply (Hc fs).
Qed.

Lemma row_final_in_range ps r :
  Forall costs_in_range ps -> in_range lo hi (row_avlcpcost r) ->
  in_range lo hi (row_avlcpcost (row_final env solver ps r)).
Proof.
  intros Hps Hr. unfold row_final. case_decide as Hin; [|done].
  destruct (point_result env solver (row_id r)) eqn:E; [|done].
  eapply point_result_in_range; [|exact E]. by eapply Forall_forall in Hps.
Qed.
End Bounds.

(** C26: with a non-empty offset list, when every cost the solver reports
    for a looped-over point lies in [[lo, hi]], the script writes one
    table and every value in it lies in [[lo, hi]] (NaN rows apart). *)
Theorem local_isolation_values_bounded env solver w (lo hi : Q) :
  bufcoordchng_rad2dg_grid1dg env <> [] ->
  Forall (costs_in_range env solver lo hi) (selec_point_ids env) ->
  exists rows,
    csv_written (snd (local_isolation env solver w)) =
      [(os_path_join (tab_output_path env) "locisol_hmi.csv", rows)] /\
    Forall (fun r => in_range lo hi (row_avlcpcost r)) rows.
Proof.
  intros Hne Hps. rewrite local_isolation_run by done. eexists. split; [reflexivity|].
  rewrite iso_loop_spec_df. cbn [df_cntry iso_init]. unfold load_df_cntry.
  rewrite map_map. apply Forall_fmap, Forall_forall. intros f _.
  by apply row_final_in_range.
Qed.

Lemma local_isolation_values_bounded_witness :
  exists rows,
    csv_written (snd (local_isolation demo_env demo_solver (mkWorld [] [] 0))) =
      [(os_path_join (tab_output_path demo_env) "locisol_hmi.csv", rows)] /\
    Forall (fun r => in_range 0 7 (row_avlcpcost r)) rows.
Proof.
  apply local_isolation_values_bounded.
  - discriminate.
  - repeat constructor; intros fs cs Ho Ha; vm_compute in Ho; simplify_eq;
      vm_compute in Ha; simplify_eq; repeat constructor; vm_compute; discriminate.
Defined.
