(* ===== verification/Csv.v ===== *)
(** * The table file: [df_cntry.to_csv(...)] (source line 234)

    [to_csv] in [Isolation] records the rows the script writes; this file
    gives their text, as pandas writes it with the defaults line 234 uses:
    a header line, then one line per row; the first column is the table's
    index (the positions 0, 1, ... of the rows: [df_cntry] is built by
    [DataFrame.from_records], whose index is a range), unnamed in the
    header; NaN is the empty field ([na_rep='']); fields are quoted only
    when they contain a comma, a double quote or a line break, with
    double quotes doubled ([csv.QUOTE_MINIMAL]); lines end with a newline;
    a line of one empty field is written as a quoted empty field, as
    [writerow] does.  Whether a carriage return alone forces quoting
    depends on the Python version (older versions quote only the characters
    of the line terminator, here a newline); the model quotes it, as recent
    versions do.  No field of the table can hold one: ids and positions are
    digits, isocodes come from the grid layer and floats from [repr].
    Floats are written by Python's [repr]; the model takes the float
    formatter as a class [FloatRepr] whose law is that [float] reads back
    what [repr] writes.

    The reader [csv_parse] is the RFC 4180 state machine of a CSV reader.
    Theorems: any list of non-empty rows of any strings is read back from
    its text ([csv_parse_text]); the file of a table reads back as the
    header [,id,isocode,avlcpcost] and one line per row with its position
    first; and the table is read back from its file ([read_table]). *)

From stdpp Require Import base list strings.
From Stdlib Require Import Ascii String ZArith QArith.
From S2P Require Import Prelude PyBuiltins Qgis Neighbors Isolation.

(** ** Writing *)

Definition quote_char : ascii := "034".
Definition comma : ascii := ",".
Definition newline : ascii := "010".
Definition carriage_return : ascii := "013".

(** The characters that force a field to be quoted. *)
Definition csv_plain_char (c : ascii) : bool :=
  negb (bool_decide (c = comma \/ c = quote_char \/ c = newline \/ c = carriage_return)).

Fixpoint double_quotes (s : string) : string :=
  match s with
  | EmptyString => EmptyString
  | String c s' =>
      if decide (c = quote_char) then String quote_char (String quote_char (double_quotes s'))
      else String c (double_quotes s')
  end.

(** A field as the [csv] module writes it under [QUOTE_MINIMAL]. *)
Definition csv_field (s : string) : string :=
  if str_forallb csv_plain_char s then s
  else String quote_char (double_quotes s +:+ String quote_char EmptyString).

(** [writerow]: the fields joined by commas, then the line terminator; a
    line of one empty field is written as a quoted empty field, so that it
    is not read back as an empty line. *)
Definition csv_row (fields : list string) : string :=
  if decide (fields = [EmptyString]) then
    String quote_char (String quote_char (String newline EmptyString))
  else py_join "," (map csv_field fields) +:+ String newline EmptyString.

Fixpoint csv_text (rows : list (list string)) : string :=
  match rows with
  | [] => EmptyString
  | r :: rs => csv_row r +:+ csv_text rs
  end.

(** ** Reading *)

Inductive pmode := StartField | Unquoted | Quoted | AfterQuote.

(** The reader's state: the mode, the characters of the current field
    (reversed), the fields of the current line (reversed) and the lines
    read (reversed).  The text must end with a newline. *)
Fixpoint csv_go (s : string) (m : pmode) (acc : list ascii) (row : list string)
    (rows : list (list string)) : option (list (list string)) :=
  match s with
  | EmptyString =>
      match m, acc, row with
      | StartField, [], [] => Some (rev rows)
      | _, _, _ => None
      end
  | String c s' =>
      match m with
      | Quoted =>
          if decide (c = quote_char) then csv_go s' AfterQuote acc row rows
          else csv_go s' Quoted (c :: acc) row rows
      | _ =>
          if decide (c = quote_char) then
            match m with
            | StartField => csv_go s' Quoted acc row rows
            | AfterQuote => csv_go s' Quoted (quote_char :: acc) row rows
            | _ => csv_go s' Unquoted (c :: acc) row rows
            end
          else if decide (c = comma) then
            csv_go s' StartField [] (string_of_list_ascii (rev acc) :: row) rows
          else if decide (c = newline) then
            csv_go s' StartField [] [] (rev (string_of_list_ascii (rev acc) :: row) :: rows)
          else
            match m with
            | AfterQuote => None
            | _ => csv_go s' Unquoted (c :: acc) row rows
            end
      end
  end.

Definition csv_parse (s : string) : option (list (list string)) :=
  csv_go s StartField [] [] [].

(** ** Reading what was written *)

Lemma csv_go_comma m acc row rows r :
  m <> Quoted ->
  csv_go (String comma r) m acc row rows =
  csv_go r StartField [] (string_of_list_ascii (rev acc) :: row) rows.
Proof. intros Hm. destruct m; done. Qed.

Lemma csv_go_newline m acc row rows r :
  m <> Quoted ->
  csv_go (String newline r) m acc row rows =
  csv_go r StartField [] [] (rev (string_of_list_ascii (rev acc) :: row) :: rows).
Proof. intros Hm. destruct m; done. Qed.

Definition after_plain (s : string) (m : pmode) : pmode :=
  match s with EmptyString => m | _ => Unquoted end.

Lemma csv_go_plain s m acc row rows r :
  m = StartField \/ m = Unquoted -> str_forallb csv_plain_char s = true ->
  csv_go (s +:+ r) m acc row rows =
  csv_go r (after_plain s m) (rev (list_ascii_of_string s) ++ acc) row rows.
Proof.
  revert m acc. induction s as [|c s IH]; intros m acc Hm Hs; [done|].
  cbn in Hs. apply andb_prop in Hs as [Hc Hs]. unfold csv_plain_char in Hc.
  apply negb_true_iff, bool_decide_eq_false in Hc.
  rewrite str_app_cons. cbn [csv_go]. destruct Hm as [->| ->];
    rewrite !decide_False by naive_solver;
    rewrite IH by auto; cbn; rewrite <- app_assoc; by destruct s.
Qed.

Lemma csv_go_quoted s acc row rows r :
  csv_go (double_quotes s +:+ String quote_char r) Quoted acc row rows =
  csv_go r AfterQuote (rev (list_ascii_of_string s) ++ acc) row rows.
Proof.
  revert acc. induction s as [|c s IH]; intros acc; [done|].
  cbn [double_quotes]. case_decide as Hc.
  - subst c. rewrite !str_app_cons. cbn [csv_go]. rewrite !decide_True by done.
    rewrite IH. cbn. by rewrite <- app_assoc.
  - rewrite str_app_cons. cbn [csv_go]. rewrite decide_False by done.
    rewrite IH. cbn. by rewrite <- app_assoc.
Qed.

(** After a field the reader is in a mode where a comma or a newline ends
    it, holding the field's characters. *)
Lemma csv_go_field f row rows r :
  exists m, m <> Quoted /\
    csv_go (csv_field f +:+ r) StartField [] row rows =
    csv_go r m (rev (list_ascii_of_string f)) row rows.
Proof.
  unfold csv_field. destruct (str_forallb csv_plain_char f) eqn:Hf.
  - exists (after_plain f StartField). split; [by destruct f|].
    rewrite csv_go_plain by auto. by rewrite app_nil_r.
  - exists AfterQuote. split; [done|].
    rewrite str_app_cons. cbn [csv_go]. rewrite decide_True by done.
    rewrite str_app_assoc, str_app_cons, str_app_nil_l, csv_go_quoted.
    by rewrite app_nil_r.
Qed.

Lemma string_of_field f :
  string_of_list_ascii (rev (rev (list_ascii_of_string f))) = f.
Proof. by rewrite rev_involutive, string_of_list_ascii_of_string. Qed.

Lemma str_sep_cons (c : ascii) s : String c EmptyString +:+ s = String c s.
Proof. reflexivity. Qed.

Lemma csv_go_row fields row rows r :
  fields <> [] ->
  csv_go (py_join "," (map csv_field fields) +:+ String newline r) StartField [] row rows =
  csv_go r StartField [] [] ((rev row ++ fields) :: rows).
Proof.
  revert row. induction fields as [|f fs IH]; intros row Hne; [done|].
  destruct fs as [|f' fs].
  - cbn [map py_join]. destruct (csv_go_field f row rows (String newline r)) as (m & Hm & ->).
    by rewrite csv_go_newline, string_of_field.
  - cbn [map]. rewrite py_join_cons, !str_app_assoc.
    edestruct (csv_go_field f row rows) as (m & Hm & ->).
    rewrite str_sep_cons, csv_go_comma, string_of_field by done.
    rewrite IH by done. cbn. by rewrite <- app_assoc.
Qed.

Lemma csv_go_text rs rows :
  Forall (fun fields => fields <> []) rs ->
  csv_go (csv_text rs) StartField [] [] rows = Some (rev rows ++ rs).
Proof.
  intros Hrs. revert rows. induction Hrs as [|fs rs Hfs _ IH]; intros rows.
  - cbn. by rewrite app_nil_r.
  - cbn [csv_text]. unfold csv_row. case_decide as Hone.
    + subst fs. rewrite !str_app_cons, str_app_nil_l. cbn. rewrite IH. cbn. by rewrite <- app_assoc.
    + rewrite !str_app_assoc, str_sep_cons, csv_go_row by done.
      rewrite IH. cbn. by rewrite <- app_assoc.
Qed.

(** Any list of non-empty lines of arbitrary fields is read back from its
    text: quoting and doubling make commas, quotes and line breaks inside a
    field harmless. *)
Lemma csv_parse_text rs :
  Forall (fun fields => fields <> []) rs -> csv_parse (csv_text rs) = Some rs.
Proof. intros Hrs. unfold csv_parse. by rewrite csv_go_text. Qed.

(** ** The table file *)

(** Python's [repr] of a float and [float] of a string: [float] reads back
    what [repr] writes, and [repr] never writes the empty string. *)
Class FloatRepr := {
  float_repr : Q -> string;
  float_parse : string -> option Q;
  float_parse_repr q : float_parse (float_repr q) = Some q;
  float_repr_nonempty q : float_repr q <> EmptyString
}.

Section Table.
Context `{!FloatRepr}.

(** [na_rep='']: NaN is the empty field. *)
Definition na_rep (v : option Q) : string :=
  match v with None => EmptyString | Some q => float_repr q end.

(** The header: the unnamed index, then the columns [cols] of line 174
    and [lcpvar_name] of line 185. *)
Definition csv_header : list string := [EmptyString; "id"; "isocode"; lcpvar_name].

Definition row_fields (i : nat) (r : Row) : list string :=
  [py_str_int (Z.of_nat i); py_str_int (row_id r); row_isocode r; na_rep (row_avlcpcost r)].

(** The text [df_cntry.to_csv(path)] writes. *)
Definition df_to_csv (df : list Row) : string :=
  csv_text (csv_header :: imap row_fields df).

Definition read_avlcpcost (s : string) : option (option Q) :=
  if decide (s = EmptyString) then Some None else Some <$> float_parse s.

Definition decode_row (fields : list string) : option Row :=
  match fields with
  | [_; i; iso; v] =>
      id ← py_int_of_string i; a ← read_avlcpcost v; Some (mkRow id iso a)
  | _ => None
  end.

(** Reading the file back: the header, then one row per line. *)
Definition read_table (s : string) : option (list Row) :=
  match csv_parse s with
  | Some (hdr :: lines) => if decide (hdr = csv_header) then mapM decode_row lines else None
  | _ => None
  end.

Lemma read_na_rep v : read_avlcpcost (na_rep v) = Some v.
Proof.
  destruct v as [q|]; [|done]. unfold read_avlcpcost, na_rep.
  rewrite decide_False by apply float_repr_nonempty. by rewrite float_parse_repr.
Qed.

Lemma decode_row_fields i r : decode_row (row_fields i r) = Some r.
Proof.
  unfold decode_row, row_fields. rewrite py_str_int_parse. cbn.
  rewrite read_na_rep. by destruct r.
Qed.

Lemma mapM_decode_imap (g : nat -> Row -> list string) df :
  (forall i r, decode_row (g i r) = Some r) -> mapM decode_row (imap g df) = Some df.
Proof.
  revert g. induction df as [|r df IH]; intros g Hg; [done|].
  rewrite imap_cons. cbn. rewrite Hg, IH; [done|]. intros i r'. apply Hg.
Qed.

Lemma df_to_csv_lines df :
  csv_parse (df_to_csv df) = Some (csv_header :: imap row_fields df).
Proof.
  apply csv_parse_text. constructor; [done|].
  apply Forall_forall. intros fs (i & r & -> & _)%elem_of_lookup_imap_1. done.
Qed.
Lemma read_table_roundtrip df : read_table (df_to_csv df) = Some df.
Proof.
  unfold read_table. rewrite df_to_csv_lines, decide_True by done.
  apply mapM_decode_imap, decode_row_fields.
Qed.

(** The files on disk after a run: each table [to_csv] wrote, as text. *)
Definition written_files (st : IsoState) : list (string * string) :=
  map (fun '(path, rows) => (path, df_to_csv rows)) (csv_written st).
End Table.

(** ** A formatter meeting the contract *)

(** The fraction [n/d] of a rational; Python writes the decimal [repr] of
    the float, which this model does not compute. *)
Fixpoint split_slash (s : string) : option (string * string) :=
  match s with
  | EmptyString => None
  | String c s' =>
      if decide (c = "/"%char) then Some (EmptyString, s')
      else (fun '(a, b) => (String c a, b)) <$> split_slash s'
  end.

Definition frac_repr (q : Q) : string :=
  py_str_int (Qnum q) +:+ "/" +:+ py_str_int (Zpos (Qden q)).

Definition frac_parse (s : string) : option Q :=
  '(a, b) ← split_slash s;
  n ← py_int_of_string a; d ← py_int_of_string b;
  match d with Zpos p => Some (Qmake n p) | _ => None end.

Lemma int_char_not_slash c : int_char c = true -> c <> "/"%char.
Proof. intros Hc ->. discriminate Hc. Qed.

Lemma split_slash_app a b :
  str_forallb int_char a = true -> split_slash (a +:+ "/" +:+ b) = Some (a, b).
Proof.
  induction a as [|c a IH]; intros Ha; [done|].
  cbn in Ha. apply andb_prop in Ha as [Hc Ha].
  rewrite str_app_cons. cbn [split_slash].
  rewrite decide_False by (by apply int_char_not_slash). by rewrite IH.
Qed.

Lemma frac_parse_repr q : frac_parse (frac_repr q) = Some q.
Proof.
  destruct q as [n d]. unfold frac_parse, frac_repr.
  rewrite split_slash_app by apply py_str_int_chars. cbn -[py_str_int py_int_of_string].
  by rewrite !py_str_int_parse.
Qed.

Lemma frac_repr_nonempty q : frac_repr q <> EmptyString.
Proof. unfold frac_repr. by destruct (py_str_int (Qnum q)). Qed.

#[export] Instance frac_float_repr : FloatRepr := {|
  float_repr := frac_repr;
  float_parse := frac_parse;
  float_parse_repr := frac_parse_repr;
  float_repr_nonempty := frac_repr_nonempty
|}.

Example df_to_csv_demo :
  df_to_csv [mkRow 1 "AAA" (Some (3 # 1)); mkRow 4 "AAA" None] =
  ",id,isocode,avlcpcost
0,1,AAA,3/1
1,4,AAA,
".
Proof. reflexivity. Qed.

(** A line of one empty field and a line ending with an empty field, both
    read back. *)
Example csv_empty_fields_demo :
  csv_parse (csv_text [[EmptyString]; ["a"; EmptyString]]) = Some [[EmptyString]; ["a"; EmptyString]].
Proof. reflexivity. Qed.
