(* ===== verification/Independence.v ===== *)
(** * Independence of the loop from the order of the points

    The script runs its iterations one after the other, in the order of
    [selec_point_ids] (source line 189), in a QGIS session that already
    holds layers.  This file shows that the order does not matter for what
    the script computes.  Two loop states are equivalent ([iso_equiv]) when
    they have the same table and written files, and the same error ledger,
    layers and processing runs up to order, with the same clock.

    - [local_isolation_ledger_wf]: the two lists of the error ledger grow together,
      so the ledger is a list of (point, exception) pairs ([ledger]).
    - Section [Order]: running the loop body over any permutation of the
      points gives an equivalent state.
    - [loop_order_independent]: the loop body run over any permutation of
      the points never raises (for a non-empty offset list) and ends in an
      equivalent state. *)

From stdpp Require Import base list strings.
From Stdlib Require Import Ascii String ZArith QArith.
From S2P Require Import Prelude PyBuiltins Qgis Neighbors Isolation.

Local Open Scope py_scope.

(** ** The ledger and the equivalence of loop states *)

(** The error ledger as (point, exception) pairs. *)
Definition ledger (st : IsoState) : list (Z * PyExc) :=
  zip (error_point_list st) (error_excpt_list st).

(** The two lists of the ledger are parallel. *)
Definition ledger_wf (st : IsoState) : Prop :=
  List.length (error_point_list st) = List.length (error_excpt_list st).

#[export] Instance iso_equiv : Equiv IsoState := fun s t =>
  df_cntry s = df_cntry t /\ csv_written s = csv_written t /\
  ledger s ≡ₚ ledger t /\
  w_layers (iso_world s) ≡ₚ w_layers (iso_world t) /\
  w_runs (iso_world s) ≡ₚ w_runs (iso_world t) /\
  w_clock (iso_world s) = w_clock (iso_world t).

#[export] Instance iso_equiv_Equivalence : Equivalence (≡@{IsoState}).
Proof.
  split.
  - intros s. repeat split; done.
  - intros s t (?&?&?&?&?&?). repeat split; by symmetry.
  - intros s t u (?&?&?&?&?&?) (?&?&?&?&?&?). repeat split; by etrans.
Qed.

#[export] Instance df_cntry_proper : Proper ((≡) ==> (=)) df_cntry.
Proof. by intros s t (? & _). Qed.

#[export] Instance ledger_proper : Proper ((≡) ==> (≡ₚ)) ledger.
Proof. by intros s t (_ & _ & ? & _). Qed.

Lemma ledger_app (E A : list Z) (X B : list PyExc) :
  List.length E = List.length X -> zip (E ++ A) (X ++ B) = zip E X ++ zip A B.
Proof. apply zip_with_app. Qed.

Section Order.
Context (env : Env) (solver : LcpSolver).

(** The failing points of a list, with their exceptions. *)
Definition failures (ps : list Z) : list (Z * PyExc) :=
  omap (fun p => match point_result env solver p with Exc e => Some (p, e) | Ok _ => None end) ps.

Lemma zip_failures ps :
  zip (filter (fun p => is_ok (point_result env solver p) = false) ps)
      (omap (fun p => match point_result env solver p with Exc e => Some e | Ok _ => None end) ps) =
  failures ps.
Proof.
  unfold failures. induction ps as [|p ps IH]; [done|]. rewrite filter_cons. cbn.
  destruct (point_result env solver p); cbn; case_decide; try done; cbn; by rewrite IH.
Qed.

Lemma length_failures_split ps :
  List.length (filter (fun p => is_ok (point_result env solver p) = false) ps) =
  List.length (omap (fun p => match point_result env solver p with Exc e => Some e | Ok _ => None end) ps).
Proof.
  induction ps as [|p ps IH]; [done|]. rewrite filter_cons. cbn.
  destruct (point_result env solver p); cbn; case_decide; try done; cbn; by rewrite IH.
Qed.

Lemma iso_loop_spec_ledger ps st :
  ledger_wf st ->
  ledger_wf (iso_loop_spec env solver ps st) /\
  ledger (iso_loop_spec env solver ps st) = ledger st ++ failures ps.
Proof.
  intros Hwf. unfold ledger_wf, ledger in *.
  rewrite iso_loop_spec_errors, iso_loop_spec_excs, !length_app, length_failures_split, Hwf.
  split; [done|]. by rewrite ledger_app, zip_failures.
Qed.

Lemma foldr_sleep_perm ps ps' :
  ps ≡ₚ ps' ->
  fold_right (fun p acc => step_sleep env solver p + acc)%Z 0%Z ps =
  fold_right (fun p acc => step_sleep env solver p + acc)%Z 0%Z ps'.
Proof.
  apply (foldr_permutation_proper (=) _ _). intros; lia.
Qed.

Lemma concat_map_perm {B} (f : Z -> list B) ps ps' :
  ps ≡ₚ ps' -> List.concat (map f ps) ≡ₚ List.concat (map f ps').
Proof. intros Hp. rewrite <- !flat_map_concat_map. by rewrite Hp. Qed.

Lemma row_final_perm ps ps' r :
  ps ≡ₚ ps' -> row_final env solver ps r = row_final env solver ps' r.
Proof.
  intros Hp. assert (row_id r ∈ ps <-> row_id r ∈ ps') by (by rewrite Hp).
  unfold row_final. repeat case_decide; naive_solver.
Qed.

Lemma iso_loop_spec_perm ps ps' st :
  ps ≡ₚ ps' -> ledger_wf st ->
  iso_loop_spec env solver ps st ≡ iso_loop_spec env solver ps' st.
Proof.
  intros Hp Hwf. repeat split.
  - rewrite !iso_loop_spec_df. apply map_ext. intros r. by apply row_final_perm.
  - by rewrite !iso_loop_spec_csv.
  - rewrite !(proj2 (iso_loop_spec_ledger _ _ Hwf)). unfold failures. by rewrite Hp.
  - rewrite !iso_loop_spec_layers. by apply Permutation_app_head, concat_map_perm.
  - rewrite !iso_loop_spec_runs. by apply Permutation_app_head, concat_map_perm.
  - by rewrite !iso_loop_spec_clock, (foldr_sleep_perm _ _ Hp).
Qed.
End Order.

(** ** The ledger stays parallel *)

Lemma liftW_ledger_wf {A} (m : PyM World A) : py_preserves ledger_wf (liftW m).
Proof. intros st Hs. unfold liftW. by destruct (m (iso_world st)). Qed.

Lemma lcp_costs_ledger_wf feats : py_preserves ledger_wf (lcp_costs feats).
Proof. intros st Hs. by rewrite lcp_costs_run. Qed.

Lemma set_df_ledger_wf (g : IsoState -> list Row) :
  py_preserves ledger_wf (py_modify (fun st => set_df st (g st))).
Proof. by intros st Hs. Qed.

Lemma record_error_ledger_wf p e : py_preserves ledger_wf (record_error p e).
Proof.
  apply py_preserves_modify. intros st. unfold ledger_wf. cbn. rewrite !length_app. cbn. lia.
Qed.

Lemma to_csv_ledger_wf path : py_preserves ledger_wf (to_csv path).
Proof. by intros st Hs. Qed.

#[local] Hint Resolve liftW_ledger_wf lcp_costs_ledger_wf set_df_ledger_wf
  record_error_ledger_wf to_csv_ledger_wf : py.

Lemma iso_step_ledger_wf env solver p : py_preserves ledger_wf (iso_step env solver p).
Proof. unfold iso_step, lcp_block. eauto 20 with py. Qed.

(** C20: whatever the settings, the solver and the world, the script ends
    with an error ledger whose point list and exception list have the same
    length, also when it raises: every [except] branch appends to both,
    and nothing else touches them. *)
Theorem local_isolation_ledger_wf env solver w :
  ledger_wf (snd (local_isolation env solver w)).
Proof.
  assert (H : py_preserves ledger_wf
    (iso_loop env solver ;; to_csv (os_path_join (tab_output_path env) ("locisol" +:+ "_hmi" +:+ ".csv")))).
  { unfold iso_loop. eauto using iso_step_ledger_wf with py. }
  by apply H.
Qed.

(** ** Any order of the points *)

(** C21: with a non-empty offset list, the loop body run over two orders
    of the same points never raises and ends in equivalent states: the
    same table and files, the same ledger pairs, layers and runs up to
    order, the same clock. *)
Theorem loop_order_independent env solver ps ps' st :
  bufcoordchng_rad2dg_grid1dg env <> [] -> ps ≡ₚ ps' -> ledger_wf st ->
  fst (py_for (iso_step env solver) ps st) = Ok tt /\
  fst (py_for (iso_step env solver) ps' st) = Ok tt /\
  snd (py_for (iso_step env solver) ps st) ≡ snd (py_for (iso_step env solver) ps' st).
Proof.
  intros Hne Hp Hwf. rewrite !py_for_iso_step by done.
  split; [done|split; [done|]]. by apply iso_loop_spec_perm.
Qed.

Lemma loop_order_independent_witness :
  fst (py_for (iso_step demo_env demo_solver) [1; 2; 3; 4; 9]%Z demo_state) = Ok tt /\
  fst (py_for (iso_step demo_env demo_solver) [9; 4; 3; 2; 1]%Z demo_state) = Ok tt /\
  snd (py_for (iso_step demo_env demo_solver) [1; 2; 3; 4; 9]%Z demo_state) ≡
  snd (py_for (iso_step demo_env demo_solver) [9; 4; 3; 2; 1]%Z demo_state).
Proof.
  apply loop_order_independent.
  - discriminate.
  - apply (Permutation_rev [1; 2; 3; 4; 9]%Z).
  - reflexivity.
Defined.
