(* ===== verification/IsolationSpec.v ===== *)
(** * What the Local Isolation loop computes, against a solver contract

    The least-cost-path plugin is external.  [LcpContract solver lcp] states
    what the loop needs from it, over an abstract least cost [lcp c s e]
    from start [s] to end [e] on the cost raster [c] ([None] when no path
    exists): with no end point the run fails; otherwise it returns one path
    feature per reachable end point, whose [total cost] is that least cost
    (in any order).  [ref_solver] satisfies the contract, so it is not
    vacuous.  The contract is an assumption on the plugin: a run with end
    points does not fail (no raster or I/O error).  A plugin that may fail
    there is covered by the theorems of [Isolation], which hold for any
    solver: the failing point is recorded in the error ledger and keeps
    NaN.

    [isolation_spec] is the Local Isolation Measure of a point: the mean
    least cost from the point to its reachable neighbours.  The refinement
    theorem [local_isolation_refines] shows that, under the contract, the
    table the script writes holds exactly this value (up to [Qeq]) for every
    looped-over point, NaN for the others, and that the error ledger holds
    exactly the looped-over points without any neighbour in the grid. *)

From stdpp Require Import base list strings.
From Stdlib Require Import Ascii String ZArith QArith.
From S2P Require Import Prelude PyBuiltins Qgis Neighbors Isolation.

Local Open Scope py_scope.

(** ** The contract *)

Class LcpContract (solver : LcpSolver) (lcp : string -> GridFeature -> GridFeature -> option Q) := {
  lcp_no_ends : forall c s, is_ok (solver c [s] []) = false;
  lcp_reachable : forall c s ends, ends <> [] ->
    exists fs cs, solver c [s] ends = Ok fs /\ attr_costs fs = Ok cs /\
                  cs ≡ₚ omap (lcp c s) ends
}.

(** A solver that meets the contract: one feature per reachable end. *)
Definition ref_solver (lcp : string -> GridFeature -> GridFeature -> option Q) : LcpSolver :=
  fun c start ends =>
    match start, ends with
    | [s], _ :: _ => Ok (map (fun v => [(costcol, v)]) (omap (lcp c s) ends))
    | [_], [] => Exc (QgsProcessingException "no end points")
    | _, _ => Exc (QgsProcessingException "one start point expected")
    end.

Lemma attr_costs_single (vs : list Q) :
  attr_costs (map (fun v => [(costcol, v)]) vs) = Ok vs.
Proof. induction vs as [|v vs IH]; [done|]. cbn. by rewrite IH. Qed.

#[export] Instance ref_solver_contract lcp : LcpContract (ref_solver lcp) lcp.
Proof.
  split.
  - done.
  - intros c s [|e ends] Hne; [done|].
    eexists _, _. split; [reflexivity|]. split; [apply attr_costs_single|done].
Qed.

(** ** The measure *)

(** The Local Isolation Measure of point [p]: the mean least cost from the
    grid point with id [p] to the grid points whose id is [p] plus an
    offset and which it can reach; NaN when there is none. *)
Definition isolation_spec (env : Env) (lcp : string -> GridFeature -> GridFeature -> option Q)
    (p : Z) : option Q :=
  match start_feats env p with
  | [s] => np_mean (omap (lcp (costsurf_file env) s) (dest_feats env p))
  | _ => None
  end.

(** ** Refinement *)

Lemma filter_id_absent (l : list GridFeature) (p : Z) :
  p ∉ map gf_id l -> filter (fun f => gf_id f = p) l = [].
Proof.
  induction l as [|f l IH]; intros Hp; [done|]. cbn in Hp.
  rewrite not_elem_of_cons in Hp. destruct Hp as [Hf Hl].
  rewrite filter_cons, decide_False by congruence. by apply IH.
Qed.

Lemma filter_id_single (l : list GridFeature) (p : Z) :
  NoDup (map gf_id l) -> p ∈ map gf_id l ->
  exists s, filter (fun f => gf_id f = p) l = [s].
Proof.
  induction l as [|f l IH]; intros Hnd Hp; [by apply not_elem_of_nil in Hp|].
  cbn in Hnd, Hp. apply NoDup_cons in Hnd as [Hf Hnd].
  rewrite filter_cons. case_decide as Hid.
  - exists f. subst p. by rewrite filter_id_absent.
  - apply IH; [done|]. rewrite elem_of_cons in Hp. destruct Hp; [congruence|done].
Qed.

Section Refinement.
Context (env : Env) (solver : LcpSolver) (lcp : string -> GridFeature -> GridFeature -> option Q).
Context `{!LcpContract solver lcp}.

(** Under the contract, a point with one start feature fails exactly when
    it has no neighbour, and otherwise yields the measure. *)
Lemma point_result_contract p s :
  start_feats env p = [s] ->
  match point_result env solver p with
  | Ok v => dest_feats env p <> [] /\ v ≡ isolation_spec env lcp p
  | Exc _ => dest_feats env p = []
  end.
Proof.
  intros Hs. unfold point_result, lcp_outcome, isolation_spec. rewrite Hs.
  destruct (decide (dest_feats env p = [])) as [He|Hne].
  - pose proof (lcp_no_ends (costsurf_file env) s) as Hf. rewrite He.
    destruct (solver (costsurf_file env) [s] []) as [fs|e]; [discriminate|done].
  - destruct (lcp_reachable (costsurf_file env) s (dest_feats env p) Hne)
      as (fs & cs & -> & -> & Hperm).
    split; [done|]. by rewrite Hperm.
Qed.

Lemma local_isolation_refines_run (w : World) :
  bufcoordchng_rad2dg_grid1dg env <> [] ->
  NoDup (map gf_id (grid_file env)) ->
  Forall (fun p => p ∈ map gf_id (grid_file env)) (selec_point_ids env) ->
  (exists rows,
     csv_written (snd (local_isolation env solver w)) =
       [(os_path_join (tab_output_path env) "locisol_hmi.csv", rows)] /\
     Forall2 (fun r f => row_id r = gf_id f /\ row_isocode r = gf_isocode f /\
                row_avlcpcost r ≡
                  (if decide (gf_id f ∈ selec_point_ids env)
                   then isolation_spec env lcp (gf_id f) else None))
             rows (grid_layer env)) /\
  error_point_list (snd (local_isolation env solver w)) =
    filter (fun p => dest_feats env p = []) (selec_point_ids env).
Proof.
  intros Hne Hnd Hsel. rewrite local_isolation_run by done. cbn [snd csv_written error_point_list].
  split.
  - eexists. split; [reflexivity|]. rewrite iso_loop_spec_df. cbn [df_cntry iso_init].
    unfold load_df_cntry. rewrite map_map. apply Forall2_fmap_l, Forall_Forall2_diag.
    apply Forall_forall. intros f _. unfold compose, row_final. cbv beta.
    cbn [row_id row_isocode row_avlcpcost].
    case_decide as Hp; [|done].
    destruct (filter_id_single (grid_file env) (gf_id f) Hnd) as [s Hs];
      [by eapply Forall_forall in Hsel|].
    change (start_feats env (gf_id f) = [s]) in Hs.
    pose proof (point_result_contract (gf_id f) s Hs) as Hr.
    destruct (point_result env solver (gf_id f)); cbn; [by destruct Hr|].
    unfold isolation_spec. rewrite Hs, Hr. done.
  - rewrite iso_loop_spec_errors. cbn [error_point_list iso_init app].
    apply filter_ext_elem. intros p Hp.
    destruct (filter_id_single (grid_file env) p Hnd) as [s Hs];
      [by eapply Forall_forall in Hsel|].
    pose proof (point_result_contract p s Hs) as Hr.
    destruct (point_result env solver p); cbn; [|tauto].
    destruct Hr as [Hd _]. split; [discriminate|done].
Qed.

(** C2: refinement.  Under the solver contract, when the offset list is
    non-empty, the grid file has unique ids and holds every looped-over
    point, the table the script writes has one row per grid-layer feature
    with its id and isocode, whose value is the Local Isolation Measure
    [isolation_spec] of the point when the point is looped over and NaN
    otherwise; and the error ledger holds exactly the looped-over points
    that have no neighbour in the grid. *)
Theorem local_isolation_refines (w : World) :
  bufcoordchng_rad2dg_grid1dg env <> [] ->
  NoDup (map gf_id (grid_file env)) ->
  Forall (fun p => p ∈ map gf_id (grid_file env)) (selec_point_ids env) ->
  (exists rows,
     csv_written (snd (local_isolation env solver w)) =
       [(os_path_join (tab_output_path env) "locisol_hmi.csv", rows)] /\
     Forall2 (fun r f => row_id r = gf_id f /\ row_isocode r = gf_isocode f /\
                row_avlcpcost r ≡
                  (if decide (gf_id f ∈ selec_point_ids env)
                   then isolation_spec env lcp (gf_id f) else None))
             rows (grid_layer env)) /\
  error_point_list (snd (local_isolation env solver w)) =
    filter (fun p => dest_feats env p = []) (selec_point_ids env).
Proof. apply local_isolation_refines_run. Qed.
End Refinement.

(** ** The boundary of a one-point catalog *)

Section Boundary.
Context (env : Env) (solver : LcpSolver) (lcp : string -> GridFeature -> GridFeature -> option Q).
Context `{!LcpContract solver lcp}.

(** Under the contract, a point with one start feature and no end feature
    fails. *)
Lemma point_result_no_ends p s :
  start_feats env p = [s] -> dest_feats env p = [] ->
  is_ok (point_result env solver p) = false.
Proof.
  intros Hs Hd. pose proof (point_result_contract env solver lcp p s Hs) as Hr.
  destruct (point_result env solver p); [by destruct Hr|done].
Qed.

Lemma filter_all_fail (ps : list Z) :
  Forall (fun p => is_ok (point_result env solver p) = false) ps ->
  filter (fun p => is_ok (point_result env solver p) = false) ps = ps.
Proof.
  induction 1 as [|p ps Hp _ IH]; [done|]. by rewrite filter_cons, decide_True, IH.
Qed.

(** C22: spec section 8, the boundary case.  With a catalog of one point
    and offsets that do not contain 0, the script runs to the end, every
    looped-over point is entered in the error ledger, in loop order, and
    every row of the table it writes is NaN. *)
Theorem single_point_catalog (g : GridFeature) (w : World) :
  grid_file env = [g] ->
  bufcoordchng_rad2dg_grid1dg env <> [] -> 0%Z ∉ bufcoordchng_rad2dg_grid1dg env ->
  Forall (fun p => p = gf_id g) (selec_point_ids env) ->
  error_point_list (snd (local_isolation env solver w)) = selec_point_ids env /\
  exists rows,
    csv_written (snd (local_isolation env solver w)) =
      [(os_path_join (tab_output_path env) "locisol_hmi.csv", rows)] /\
    List.length rows = List.length (grid_layer env) /\
    Forall (fun r => row_avlcpcost r = None) rows.
Proof.
  intros Hg Hne H0 Hsel.
  assert (Hfail : Forall (fun p => is_ok (point_result env solver p) = false) (selec_point_ids env)).
  { eapply Forall_impl; [exact Hsel|]. intros p ->. apply (point_result_no_ends _ g).
    - unfold start_feats. rewrite Hg. by rewrite filter_cons, decide_True.
    - unfold dest_feats. rewrite Hg, filter_cons, decide_False; [done|].
      by rewrite Z.sub_diag. }
  rewrite local_isolation_run by done. cbn [snd csv_written error_point_list].
  split; [by rewrite iso_loop_spec_errors, filter_all_fail|].
  eexists. split; [reflexivity|]. rewrite iso_loop_spec_df. cbn [df_cntry iso_init].
  unfold load_df_cntry. rewrite map_map, length_map. split; [done|].
  apply Forall_forall. intros r (f & -> & _)%list_elem_of_fmap.
  unfold row_final. cbn [row_id row_isocode row_avlcpcost]. case_decide as Hin; [|done].
  eapply Forall_forall in Hfail; [|exact Hin].
  by destruct (point_result env solver (gf_id f)).
Qed.
End Boundary.

(** ** The scenario of the specification, under the reference solver *)

Definition demo_lcp (_ : string) (s e : GridFeature) : option Q :=
  if decide (gf_id s = 4%Z) then None else Some (demo_cost (gf_id s) (gf_id e)).

Lemma local_isolation_refines_witness :
  (exists rows,
     csv_written (snd (local_isolation demo_env (ref_solver demo_lcp) (mkWorld [] [] 0))) =
       [(os_path_join (tab_output_path demo_env) "locisol_hmi.csv", rows)] /\
     Forall2 (fun r f => row_id r = gf_id f /\ row_isocode r = gf_isocode f /\
                row_avlcpcost r ≡
                  (if decide (gf_id f ∈ selec_point_ids demo_env)
                   then isolation_spec demo_env demo_lcp (gf_id f) else None))
             rows (grid_layer demo_env)) /\
  error_point_list (snd (local_isolation demo_env (ref_solver demo_lcp) (mkWorld [] [] 0))) =
    filter (fun p => dest_feats demo_env p = []) (selec_point_ids demo_env).
Proof.
  apply (local_isolation_refines demo_env (ref_solver demo_lcp) demo_lcp).
  - discriminate.
  - apply (bool_decide_unpack _). vm_compute. exact I.
  - repeat constructor.
Defined.

(** Under the reference solver point 4 finds no path and gets NaN with no
    ledger entry; the isolated point 9 has no neighbour and is recorded. *)
Example demo_reference_ledger :
  error_point_list (snd (local_isolation demo_env (ref_solver demo_lcp) (mkWorld [] [] 0))) = [9%Z].
Proof. vm_compute. reflexivity. Qed.

(** A one-point catalog, point 5 of country AAA, under the reference
    solver. *)
Definition single_env : Env :=
  mkEnv [mkGridFeature 5 "AAA"] "grid.shp" [mkGridFeature 5 "AAA"] [(-1)%Z; 1%Z] [5%Z]
        "cost.tif" "out".

Lemma single_point_catalog_witness :
  error_point_list (snd (local_isolation single_env (ref_solver demo_lcp) (mkWorld [] [] 0))) =
    selec_point_ids single_env /\
  exists rows,
    csv_written (snd (local_isolation single_env (ref_solver demo_lcp) (mkWorld [] [] 0))) =
      [(os_path_join (tab_output_path single_env) "locisol_hmi.csv", rows)] /\
    List.length rows = List.length (grid_layer single_env) /\
    Forall (fun r => row_avlcpcost r = None) rows.
Proof.
  apply (single_point_catalog single_env (ref_solver demo_lcp) demo_lcp (mkGridFeature 5 "AAA")).
  - reflexivity.
  - discriminate.
  - apply (bool_decide_unpack _). vm_compute. exact I.
  - repeat constructor.
Defined.
