(* ===== verification/EndToEnd.v ===== *)
(** * From the QGIS project to the file on disk

    The components composed: [isolation_script] looks the grid layer up in
    the project (line 173, [Isolation]), the loop resolves each point's
    neighbours ([Neighbors]) and calls a least-cost-path solver meeting
    the contract of [IsolationSpec], and [to_csv] writes the table as the
    text of [Csv].  The theorem reads the written file back: it holds, for
    every feature of the grid layer, in layer order, its id, its isocode,
    and the Local Isolation Measure of the point when the point is looped
    over, NaN otherwise. *)

From stdpp Require Import base list strings.
From Stdlib Require Import Ascii String ZArith QArith.
From S2P Require Import Prelude PyBuiltins Qgis Neighbors Isolation Csv IsolationSpec.

Section EndToEnd.
Context `{!FloatRepr}.
Context (env : Env) (solver : LcpSolver) (lcp : string -> GridFeature -> GridFeature -> option Q).
Context `{!LcpContract solver lcp}.

(** What the file holds for a grid feature. *)
Definition measure_row (f : GridFeature) (r : Row) : Prop :=
  row_id r = gf_id f /\ row_isocode r = gf_isocode f /\
  row_avlcpcost r ≡
    (if decide (gf_id f ∈ selec_point_ids env) then isolation_spec env lcp (gf_id f) else None).

(** C27: end to end.  In a project with exactly one layer named
    [grid1dg_ctrd_cntry], a vector layer, for a solver meeting the
    contract, a non-empty offset list, a grid file with unique ids holding
    every looped-over point, and any float formatter that reads back, the
    script writes one file, [locisol_hmi.csv] in the output folder, and
    reading it back gives one row per feature of the layer, in order, with
    its id, its isocode and its Local Isolation Measure, or NaN when the
    point is not looped over. *)
Theorem isolation_file_end_to_end (w : World) (feats : list GridFeature) :
  filter (fun l => layer_name l = Some "grid1dg_ctrd_cntry") (w_layers w) =
    [VectorLayer "grid1dg_ctrd_cntry" feats] ->
  bufcoordchng_rad2dg_grid1dg env <> [] ->
  NoDup (map gf_id (grid_file env)) ->
  Forall (fun p => p ∈ map gf_id (grid_file env)) (selec_point_ids env) ->
  exists text table,
    written_files (snd (isolation_script env solver w)) =
      [(os_path_join (tab_output_path env) "locisol_hmi.csv", text)] /\
    read_table text = Some table /\
    Forall2 (fun r f => measure_row f r) table feats.
Proof.
  intros Hw Hne Hnd Hsel. rewrite (isolation_script_loads env solver w feats Hw).
  destruct (local_isolation_refines_run (set_grid_layer env feats) solver lcp w)
    as [(rows & Hcsv & Hrows) _]; try done.
  exists (df_to_csv rows), rows. unfold written_files. rewrite Hcsv.
  split; [done|]. split; [apply read_table_roundtrip|]. exact Hrows.
Qed.
End EndToEnd.

Lemma isolation_file_end_to_end_witness :
  exists text table,
    written_files (snd (isolation_script demo_env (ref_solver demo_lcp) demo_world)) =
      [(os_path_join (tab_output_path demo_env) "locisol_hmi.csv", text)] /\
    read_table text = Some table /\
    Forall2 (fun r f => measure_row demo_env demo_lcp f r) table demo_grid.
Proof.
  apply (isolation_file_end_to_end demo_env (ref_solver demo_lcp) demo_lcp demo_world demo_grid).
  - reflexivity.
  - discriminate.
  - apply (bool_decide_unpack _). vm_compute. exact I.
  - repeat constructor.
Defined.

(** The file of the demonstration run, read back: points 1, 2 and 3 have
    their measure (3, 10/2 and 12/2: the means are not reduced); point 4
    finds no path and point 9 no neighbour. *)
Example demo_file_values :
  (fun t => map row_avlcpcost <$> read_table t) <$>
    (snd <$> head (written_files (snd (isolation_script demo_env (ref_solver demo_lcp) demo_world)))) =
  Some (Some [Some (3 # 1); Some (10 # 2); Some (12 # 2); None; None]).
Proof. vm_compute. reflexivity. Qed.
